(** * Dual-Baseline Telemetry: residual engine, integrity tracker, proof ledger

    A shallow embedding of the scoring-and-ledger core of the repository:

    - [server/lib/glyphs.ts]   the state embedding table,
    - [server/lib/fraud.ts]    residuals, divergence and the verdict cascade,
    - [lib/integrity.ts]       the per-(actor, domain) integrity tracker
                               (the copy kept under [attached_assets]),
    - [server/lib/proof.ts]    the hash-chained proof ledger,
    - [server/routes.ts]       the [/api/detect] and [/api/transition] handlers,
    - [app/api/*/route.ts]     the app-router variants of the two handlers
                               (kept in the same file under [attached_assets]).

    Numbers.  A JavaScript number is modelled as a real number or [NaN]:
    finite doubles are idealised as reals (no rounding, no overflow, no
    signed zero, no infinities), and [NaN] is kept because the code can
    produce it (arithmetic on [undefined]) and because comparisons and
    [Math.min]/[Math.max] treat it specially.

    Objects.  [EMBEDDINGS] is an object literal, so a property read
    [EMBEDDINGS[k]] finds the own properties first and then the properties
    of [Object.prototype]; both are modelled.

    State.  The two globals ([SKYLA_INTEGRITY], [SKYLA_CHAIN]) are passed
    explicitly: an operation takes the state before and returns the state
    after, reads included.

    Externals.  SHA-256 ([crypto.createHash]), the number-to-string
    conversion of template literals and [toFixed] are not code of the
    repository; the ledger and [generateDBTReasons] take them as
    parameters.  [Date.now()] is passed in by the caller of each operation
    that reads the clock.  The iteration order of the integrity [Map] is a
    parameter of the aggregate queries.

    Left out: the display-only fields of the responses ([reasons],
    [baselines], [timestamp] and the like); [generateDBTReasons] is
    modelled on its own. *)

From Stdlib Require Import Reals Lra Lia ZArith Ascii String List.
From stdpp Require Import gmap strings.

Open Scope R_scope.

(* ===================================================================== *)
(** ** JavaScript numbers and the operators the code uses *)
(* ===================================================================== *)

Module JS.

Inductive number : Type :=
| Num (r : R)
| NaN.

Definition lift2 (f : R -> R -> R) (a b : number) : number :=
  match a, b with
  | Num x, Num y => Num (f x y)
  | _, _ => NaN
  end.

(** [a + b], [a - b], [a * b] *)
Definition add : number -> number -> number := lift2 Rplus.
Definition sub : number -> number -> number := lift2 Rminus.
Definition mul : number -> number -> number := lift2 Rmult.

(** [a / b].  Both divisions of the modelled code have the constant
    divisor 5.  JavaScript yields an infinity (or NaN for 0/0) on a zero
    divisor; infinities are outside this model and that case is mapped to
    [NaN]. *)
Definition div (a b : number) : number :=
  match a, b with
  | Num x, Num y => if Req_dec_T y 0 then NaN else Num (x / y)
  | _, _ => NaN
  end.

(** [a ** 2] *)
Definition pow2 (a : number) : number := mul a a.

(** [Math.sqrt(a)]: NaN on a negative argument. *)
Definition Math_sqrt (a : number) : number :=
  match a with
  | Num x => if Rlt_dec x 0 then NaN else Num (sqrt x)
  | NaN => NaN
  end.

(** [Math.min(a, b)] and [Math.max(a, b)]: NaN as soon as one argument is. *)
Definition Math_min : number -> number -> number := lift2 Rmin.
Definition Math_max : number -> number -> number := lift2 Rmax.

(** The relational operators; every comparison with NaN is false. *)
Definition ge (a b : number) : bool :=
  match a, b with
  | Num x, Num y => if Rge_dec x y then true else false
  | _, _ => false
  end.

Definition gt (a b : number) : bool :=
  match a, b with
  | Num x, Num y => if Rgt_dec x y then true else false
  | _, _ => false
  end.

Definition le (a b : number) : bool := ge b a.
Definition lt (a b : number) : bool := gt b a.

(** [n] as a number, for array lengths and counters. *)
Definition of_nat (n : nat) : number := Num (INR n).

(** [x || 0] on an optional number: [undefined], [0] and [NaN] are falsy. *)
Definition or_zero (x : option number) : number :=
  match x with
  | Some (Num r) => if Req_dec_T r 0 then Num 0 else Num r
  | Some NaN => Num 0
  | None => Num 0
  end.

(** What a property read can return in the modelled code: an embedding
    vector, a function (with its [length], the number of formal
    parameters), a plain object, or [undefined]. *)
Inductive value : Type :=
| VUndefined
| VArray (xs : list R)
| VFunction (arity : nat)
| VObject.

(** Truthiness: only [undefined] is falsy among these. *)
Definition truthy (v : value) : bool :=
  match v with
  | VUndefined => false
  | _ => true
  end.

(** The properties every object literal inherits from [Object.prototype]. *)
Definition Object_prototype : list (string * value) :=
  [ ("constructor", VFunction 1);
    ("__defineGetter__", VFunction 2);
    ("__defineSetter__", VFunction 2);
    ("hasOwnProperty", VFunction 1);
    ("__lookupGetter__", VFunction 1);
    ("__lookupSetter__", VFunction 1);
    ("isPrototypeOf", VFunction 1);
    ("propertyIsEnumerable", VFunction 1);
    ("toString", VFunction 0);
    ("valueOf", VFunction 0);
    ("__proto__", VObject);
    ("toLocaleString", VFunction 0) ]%string.

Fixpoint assoc {A : Type} (k : string) (l : list (string * A)) : option A :=
  match l with
  | [] => None
  | (k', v) :: l' => if String.eqb k' k then Some v else assoc k l'
  end.

(** [o[k]] for an object literal [o] whose own properties are vectors:
    an own property first, then the prototype chain, else [undefined]. *)
Definition get (o : list (string * list R)) (k : string) : value :=
  match assoc k o with
  | Some xs => VArray xs
  | None =>
      match assoc k Object_prototype with
      | Some v => v
      | None => VUndefined
      end
  end.

(** [Object.keys(o)]: the own enumerable property names, in insertion order. *)
Definition Object_keys {A : Type} (o : list (string * A)) : list string :=
  map fst o.

(** What a loop [for (i = 0; i < Math.min(a.length, ...); i++) ... a[i] ...]
    observes of a value used as a [number[]]: an array gives its elements;
    a function has [length] formal parameters and every [a[i]] is
    [undefined], which arithmetic converts to NaN; a plain object has no
    [length], the bound is NaN and the loop body never runs. *)
Definition as_numbers (v : value) : list number :=
  match v with
  | VArray xs => map Num xs
  | VFunction n => repeat NaN n
  | VObject => []
  | VUndefined => []
  end.

(** [k in o] for an object literal [o]: an own or an inherited property. *)
Definition has_property (o : list (string * list R)) (k : string) : bool :=
  match assoc k o with
  | Some _ => true
  | None =>
      match assoc k Object_prototype with
      | Some _ => true
      | None => false
      end
  end.

(** The outcome of code that can throw. *)
Inductive error : Type := TypeError.

Inductive completion (A : Type) : Type :=
| Return (a : A)
| Throw (e : error).

Arguments Return {A} a.
Arguments Throw {A} e.

End JS.

(* ===================================================================== *)
(** ** server/lib/glyphs.ts *)
(* ===================================================================== *)

Module Glyphs.

Definition DOMAIN : string := "symbolic.state".

Definition EMBEDDINGS : list (string * list R) :=
  [ ("chaos",    [0.1; 0.9; 0.8; 0.2]);
    ("conflict", [0.3; 0.7; 0.6; 0.4]);
    ("reflect",  [0.5; 0.5; 0.4; 0.6]);
    ("aligned",  [0.7; 0.3; 0.3; 0.7]);
    ("presence", [0.8; 0.2; 0.2; 0.8]);
    ("insight",  [0.9; 0.1; 0.1; 0.9]);
    ("peace",    [0.9; 0.0; 0.0; 1.0]);
    ("serenity", [1.0; 0.0; 0.0; 1.0]) ]%string.

(** [getAllSymbolicStates()] *)
Definition getAllSymbolicStates : list string := JS.Object_keys EMBEDDINGS.

(** [isValidSymbolicState(state)]: [state in EMBEDDINGS] *)
Definition isValidSymbolicState (state : string) : bool :=
  JS.has_property EMBEDDINGS state.

End Glyphs.

(* ===================================================================== *)
(** ** server/lib/fraud.ts *)
(* ===================================================================== *)

Module Fraud.
Import JS.

Inductive Verdict : Type := VALID | CAUTION | SUSPICIOUS | REJECT.

Definition Verdict_eqb (a b : Verdict) : bool :=
  match a, b with
  | VALID, VALID | CAUTION, CAUTION | SUSPICIOUS, SUSPICIOUS | REJECT, REJECT => true
  | _, _ => false
  end.

(** The loop of [vectorDistance]: [s += (a[i] - b[i]) ** 2] over the common
    prefix of the two vectors. *)
Fixpoint sum_squares (a b : list number) (s : number) : number :=
  match a, b with
  | x :: a', y :: b' => sum_squares a' b' (add s (pow2 (sub x y)))
  | _, _ => s
  end.

Definition vectorDistance (a b : list number) : number :=
  Math_sqrt (sum_squares a b (Num 0)).

Definition FORBIDDEN : list (string * string) :=
  [ ("chaos", "peace"); ("conflict", "serenity") ]%string.

Definition forbiddenTransition (from to : string) : bool :=
  existsb (fun ft => String.eqb (fst ft) from && String.eqb (snd ft) to) FORBIDDEN.

(** [CAP = 5] is the default of the optional second parameter. *)
Definition CAP_default : number := Num 5.

Definition temporalResidualFromDistance (dist CAP : number) : number :=
  Math_min (Num 1) (div dist CAP).

Definition logicResidualFromRule (forbidden : bool) : number :=
  if forbidden then Num 1 else Num 0.

Record Weights : Type := { wL : number; wT : number }.

(** The defaults of the optional parameters of [divergence]. *)
Definition weights_default : Weights := {| wL := Num 0.6; wT := Num 0.4 |}.
Definition context_default : list (string * number) := [].

(** [divergence].  The context object is given by its entries in
    [Object.keys] order; the loop adds [(context[k] ** 2) * 0.25] for each. *)
Definition divergence (deltaLogic deltaTemporal : number)
    (context : list (string * number)) (weights : Weights) : number :=
  let s := add (mul (wL weights) (pow2 deltaLogic))
               (mul (wT weights) (pow2 deltaTemporal)) in
  Math_sqrt
    (fold_left (fun s kv => add s (mul (pow2 (snd kv)) (Num 0.25))) context s).

Definition verdictFromDivergence (deltaLogic deltaTemporal div : number) : Verdict :=
  if ge deltaLogic (Num 1) then REJECT
  else if gt div (Num 0.85) then REJECT
  else if gt div (Num 0.65) then SUSPICIOUS
  else if gt div (Num 0.45) then CAUTION
  else VALID.

Section Externals.

(** [x.toFixed(digits)] *)
Variable Number_toFixed : number -> nat -> string.

(** [generateDBTReasons(deltaLogic, deltaTemporal, div, from, to)];
    [reasons.push(r)] appends [r] to the array. *)
Definition generateDBTReasons (deltaLogic deltaTemporal div : number)
    (from to : string) : list string :=
  let reasons : list string := [] in
  let reasons :=
    if ge deltaLogic (Num 1) then
      reasons ++ ["Logic Baseline violated: forbidden transition " +:+ from +:+ "→" +:+ to]
    else
      reasons ++ ["Logic Baseline satisfied: valid symbolic transition"%string] in
  let reasons :=
    if gt deltaTemporal (Num 0.8) then
      reasons ++ ["Temporal Baseline exceeded: pace residual " +:+
                  Number_toFixed deltaTemporal 3 +:+ " indicates abrupt shift"]
    else if gt deltaTemporal (Num 0.5) then
      reasons ++ ["Temporal Baseline caution: moderate pace residual " +:+
                  Number_toFixed deltaTemporal 3]
    else
      reasons ++ ["Temporal Baseline satisfied: pace residual " +:+
                  Number_toFixed deltaTemporal 3 +:+ " within normal range"] in
  reasons ++ ["Combined divergence: " +:+ Number_toFixed div 3 +:+
              " (consensus strength: " +:+
              Number_toFixed (mul (sub (Num 1) (Math_min (Num 1) div)) (Num 100)) 1 +:+
              "%)"].

End Externals.

End Fraud.

(* ===================================================================== *)
(** ** lib/integrity.ts *)
(* ===================================================================== *)

Module Integrity.
Import JS.

Record IntegrityRow : Type := {
  actorId : string;
  domain : string;
  integrity : number;
  lastUpdated : Z;
  interactionCount : nat;
  averageDivergence : number
}.

(** [globalThis.SKYLA_INTEGRITY : Map<string, IntegrityRow>] is threaded
    through every operation as a finite map: each operation takes the table
    and returns the table it leaves behind, with its result. *)
Abbreviation Table := (gmap string IntegrityRow).

Definition ALPHA : number := Num 0.2.
Definition COLD_START_THRESHOLD : number := Num 5.

Definition key (actorId domain : string) : string :=
  actorId +:+ "::" +:+ domain.

(** [const row = SKYLA_INTEGRITY.get(key(actorId, domain));
     return row?.integrity ?? 0.85] *)
Definition getIntegrity (tbl : Table) (actorId domain : string) : Table * number :=
  let row := tbl !! key actorId domain in
  (tbl, match row with Some r => integrity r | None => Num 0.85 end).

(** [return SKYLA_INTEGRITY.get(key(actorId, domain)) ?? null] *)
Definition getIntegrityDetails (tbl : Table) (actorId domain : string)
  : Table * option IntegrityRow :=
  (tbl, tbl !! key actorId domain).

(** The three local constants of [updateIntegrity] that precede the EWMA. *)
Definition penalty (div : number) : number := Math_min (Num 1) div.

Definition coldStartFactor (prevCount : nat) : number :=
  Math_min (Num 1) (JS.div (of_nat prevCount) COLD_START_THRESHOLD).

Definition adjustedPenalty (div : number) (prevCount : nat) : number :=
  mul (penalty div) (add (Num 0.3) (mul (Num 0.7) (coldStartFactor prevCount))).

(** [updateIntegrity(actorId, domain, div)]; [now] is what [Date.now()]
    returns.  The result is the table after [set] and the returned
    [row.integrity]. *)
Definition updateIntegrity (now : Z) (tbl : Table) (actorId domain : string)
    (div : number) : Table * number :=
  let k := key actorId domain in
  let prev := tbl !! k in
  let prevI := match prev with Some p => integrity p | None => Num 0.85 end in
  let prevCount := match prev with Some p => interactionCount p | None => 0%nat end in
  let prevAvgDiv := match prev with Some p => averageDivergence p | None => Num 0.3 end in
  let newI := add (mul (sub (Num 1) ALPHA) prevI)
                  (mul ALPHA (sub (Num 1) (adjustedPenalty div prevCount))) in
  let newAvgDiv := add (mul (sub (Num 1) ALPHA) prevAvgDiv) (mul ALPHA div) in
  let row := {| actorId := actorId;
                domain := domain;
                integrity := Math_max (Num 0.05) (Math_min (Num 1) newI);
                lastUpdated := now;
                interactionCount := prevCount + 1;
                averageDivergence := newAvgDiv |} in
  (<[k := row]> tbl, integrity row).

Definition getIntegrityTrend (tbl : Table) (actorId domain : string) : Table * number :=
  let '(tbl, details) := getIntegrityDetails tbl actorId domain in
  (tbl,
   match details with
   | None => Num 0
   | Some details =>
       if (interactionCount details <? 3)%nat then Num 0
       else sub (integrity details) (sub (Num 1) (averageDivergence details))
   end).

Definition resetIntegrity (tbl : Table) (actorId domain : string) : Table :=
  delete (key actorId domain) tbl.




End Integrity.

(* ===================================================================== *)
(** ** server/lib/proof.ts *)
(* ===================================================================== *)

Module ProofLedger.
Import JS.

Record ProofNode : Type := {
  idx : nat;
  from : string;
  to : string;
  delta : number;
  prevHash : string;
  hash : string;
  deltaLogic : option number;
  deltaTemporal : option number;
  divergence : option number
}.

(** [Omit<ProofNode, 'hash'>] *)
Record Unhashed : Type := {
  n_idx : nat;
  n_from : string;
  n_to : string;
  n_delta : number;
  n_prevHash : string;
  n_deltaLogic : option number;
  n_deltaTemporal : option number;
  n_divergence : option number
}.

(** The [transition] argument of [appendProof]. *)
Record Transition : Type := {
  t_from : string;
  t_to : string;
  t_delta : number;
  t_prevHash : string;
  t_deltaLogic : option number;
  t_deltaTemporal : option number;
  t_divergence : option number
}.

(** A [ProofNode] read at the type [Omit<ProofNode, 'hash'>]. *)
Definition without_hash (n : ProofNode) : Unhashed :=
  {| n_idx := idx n; n_from := from n; n_to := to n; n_delta := delta n;
     n_prevHash := prevHash n; n_deltaLogic := deltaLogic n;
     n_deltaTemporal := deltaTemporal n; n_divergence := divergence n |}.

Section Externals.

(** [crypto.createHash('sha256').update(data).digest('hex')] *)
Variable sha256_hex : string -> string.
(** The rendering of a number inside a template literal. *)
Variable Number_toString : number -> string.

(** The template literal of [hashProofNode]. *)
Definition hash_data (node : Unhashed) : string :=
  Number_toString (of_nat (n_idx node)) +:+ "-" +:+
  n_from node +:+ "-" +:+
  n_to node +:+ "-" +:+
  Number_toString (n_delta node) +:+ "-" +:+
  n_prevHash node +:+ "-" +:+
  Number_toString (or_zero (n_deltaLogic node)) +:+ "-" +:+
  Number_toString (or_zero (n_deltaTemporal node)) +:+ "-" +:+
  Number_toString (or_zero (n_divergence node)).

Definition hashProofNode (node : Unhashed) : string :=
  sha256_hex (hash_data node).

Definition appendProof (chain : list ProofNode) (transition : Transition)
  : list ProofNode :=
  let idx := length chain in
  let nodeWithoutHash :=
    {| n_idx := idx;
       n_from := t_from transition;
       n_to := t_to transition;
       n_delta := t_delta transition;
       n_prevHash := t_prevHash transition;
       n_deltaLogic := t_deltaLogic transition;
       n_deltaTemporal := t_deltaTemporal transition;
       n_divergence := t_divergence transition |} in
  let hash := hashProofNode nodeWithoutHash in
  let newNode :=
    {| idx := n_idx nodeWithoutHash;
       from := n_from nodeWithoutHash;
       to := n_to nodeWithoutHash;
       delta := n_delta nodeWithoutHash;
       prevHash := n_prevHash nodeWithoutHash;
       hash := hash;
       deltaLogic := n_deltaLogic nodeWithoutHash;
       deltaTemporal := n_deltaTemporal nodeWithoutHash;
       divergence := n_divergence nodeWithoutHash |} in
  chain ++ [newNode].

End Externals.

(** [getProofChain()] returns a copy of the global chain; [resetProofChain()]
    replaces it by the empty array. *)
Definition getProofChain (SKYLA_CHAIN : list ProofNode) : list ProofNode :=
  SKYLA_CHAIN.

Definition resetProofChain (SKYLA_CHAIN : list ProofNode) : list ProofNode := [].

End ProofLedger.

(* ===================================================================== *)
(** ** server/routes.ts: the two handlers of the core *)
(* ===================================================================== *)

Module Routes.
Import JS.

(** The two process-wide singletons. [SKYLA_CHAIN] is initialised to the
    empty array when [proof.ts] is loaded and only ever replaced by arrays. *)
Record Globals : Type := {
  SKYLA_INTEGRITY : gmap string Integrity.IntegrityRow;
  SKYLA_CHAIN : list ProofLedger.ProofNode
}.

Definition startup : Globals :=
  {| SKYLA_INTEGRITY := ∅; SKYLA_CHAIN := [] |}.

(** [req.body]: [from] and [to] are property keys (strings); the other
    three fields are optional and take their defaults when absent. *)
Record Request : Type := {
  from : string;
  to : string;
  actorA : option string;
  actorB : option string;
  domain : option string
}.

Definition actorA_of (req : Request) : string := default "user:A"%string (actorA req).
Definition actorB_of (req : Request) : string := default "user:B"%string (actorB req).
Definition domain_of (req : Request) : string := default Glyphs.DOMAIN (domain req).

Record Delta : Type := {
  logicResidual : number;
  temporalResidual : number;
  divergence : number
}.

(** *** POST /api/detect *)

Record ActorInfo : Type := {
  a_integrity : number;
  a_interactions : nat;
  a_averageDivergence : number
}.

(** [{ integrity, interactions: details?.interactionCount ?? 0,
       averageDivergence: details?.averageDivergence ?? 0.3 }] *)
Definition actor_info (integrity : number) (details : option Integrity.IntegrityRow)
  : ActorInfo :=
  {| a_integrity := integrity;
     a_interactions :=
       match details with Some d => Integrity.interactionCount d | None => 0%nat end;
     a_averageDivergence :=
       match details with Some d => Integrity.averageDivergence d | None => Num 0.3 end |}.

(** The responses; display-only fields ([reasons], [baselines],
    [timestamp], the [error] text) are left out. *)
Inductive DetectResponse : Type :=
| DetectInvalid (status : nat) (available : list string)
| DetectOk (dist : number) (delta : Delta) (verdict : Fraud.Verdict)
           (consensusStrength : number) (actors : gmap string ActorInfo).

Definition detect (g : Globals) (req : Request) : Globals * DetectResponse :=
  let from := from req in
  let to := to req in
  let actorA := actorA_of req in
  let actorB := actorB_of req in
  let domain := domain_of req in
  if negb (truthy (get Glyphs.EMBEDDINGS from))
     || negb (truthy (get Glyphs.EMBEDDINGS to)) then
    (g, DetectInvalid 400 (Object_keys Glyphs.EMBEDDINGS))
  else
    let dist := Fraud.vectorDistance (as_numbers (get Glyphs.EMBEDDINGS from))
                                     (as_numbers (get Glyphs.EMBEDDINGS to)) in
    let isForbidden := Fraud.forbiddenTransition from to in
    let deltaLogic := Fraud.logicResidualFromRule isForbidden in
    let deltaTemporal := Fraud.temporalResidualFromDistance dist Fraud.CAP_default in
    let div := Fraud.divergence deltaLogic deltaTemporal
                 Fraud.context_default Fraud.weights_default in
    let verdict := Fraud.verdictFromDivergence deltaLogic deltaTemporal div in
    let '(tbl, integrityA) := Integrity.getIntegrity (SKYLA_INTEGRITY g) actorA domain in
    let '(tbl, integrityB) := Integrity.getIntegrity tbl actorB domain in
    let '(tbl, detailsA) := Integrity.getIntegrityDetails tbl actorA domain in
    let '(tbl, detailsB) := Integrity.getIntegrityDetails tbl actorB domain in
    let consensusStrength := Math_max (Num 0) (Math_min (Num 1) (sub (Num 1) div)) in
    ({| SKYLA_INTEGRITY := tbl; SKYLA_CHAIN := SKYLA_CHAIN g |},
     DetectOk dist
       {| logicResidual := deltaLogic; temporalResidual := deltaTemporal;
          divergence := div |}
       verdict consensusStrength
       (<[actorB := actor_info integrityB detailsB]>
          (<[actorA := actor_info integrityA detailsA]> ∅))).

(** *** POST /api/transition *)

Record IntegrityChange : Type := {
  before : number;
  after : number;
  change : number
}.

Definition integrity_change (pre post : number) : IntegrityChange :=
  {| before := pre; after := post; change := sub post pre |}.

Inductive TransitionResponse : Type :=
| TransitionInvalid (status : nat) (available : list string)
| TransitionRejected (status : nat) (ok : bool) (delta : Delta)
    (verdict : Fraud.Verdict) (integrityUpdates : gmap string IntegrityChange)
    (chainExtended : bool)
| TransitionAccepted (ok : bool) (newState : string) (proofHash : string)
    (proofIndex : nat) (delta : Delta) (verdict : Fraud.Verdict)
    (consensusStrength : number) (integrityUpdates : gmap string IntegrityChange)
    (chainExtended : bool) (chainLength : nat).

Section Externals.

Variable sha256_hex : string -> string.
Variable Number_toString : number -> string.

(** [now k] is what the [k]-th call of [Date.now()] made while serving the
    request returns. *)
Definition transition (now : nat -> Z) (g : Globals) (req : Request)
  : Globals * TransitionResponse :=
  let from := from req in
  let to := to req in
  let actorA := actorA_of req in
  let actorB := actorB_of req in
  let domain := domain_of req in
  if negb (truthy (get Glyphs.EMBEDDINGS from))
     || negb (truthy (get Glyphs.EMBEDDINGS to)) then
    (g, TransitionInvalid 400 (Object_keys Glyphs.EMBEDDINGS))
  else
    let dist := Fraud.vectorDistance (as_numbers (get Glyphs.EMBEDDINGS from))
                                     (as_numbers (get Glyphs.EMBEDDINGS to)) in
    let isForbidden := Fraud.forbiddenTransition from to in
    let deltaLogic := Fraud.logicResidualFromRule isForbidden in
    let deltaTemporal := Fraud.temporalResidualFromDistance dist Fraud.CAP_default in
    let div := Fraud.divergence deltaLogic deltaTemporal
                 Fraud.context_default Fraud.weights_default in
    let verdict := Fraud.verdictFromDivergence deltaLogic deltaTemporal div in
    let delta := {| logicResidual := deltaLogic; temporalResidual := deltaTemporal;
                    divergence := div |} in
    let '(tbl, preIntegrityA) := Integrity.getIntegrity (SKYLA_INTEGRITY g) actorA domain in
    let '(tbl, preIntegrityB) := Integrity.getIntegrity tbl actorB domain in
    if Fraud.Verdict_eqb verdict Fraud.REJECT then
      let '(tblA, postIntegrityA) :=
        Integrity.updateIntegrity (now 0%nat) tbl actorA domain div in
      let '(tblB, postIntegrityB) :=
        Integrity.updateIntegrity (now 1%nat) tblA actorB domain
          (Math_min (mul div (Num 0.3)) (Num 1)) in
      ({| SKYLA_INTEGRITY := tblB; SKYLA_CHAIN := SKYLA_CHAIN g |},
       TransitionRejected 400 false delta verdict
         (<[actorB := integrity_change preIntegrityB postIntegrityB]>
            (<[actorA := integrity_change preIntegrityA postIntegrityA]> ∅))
         false)
    else
      let prevHash :=
        match last (SKYLA_CHAIN g) with
        | Some tail => ProofLedger.hash tail
        | None => "GENESIS"%string
        end in
      let chain :=
        ProofLedger.appendProof sha256_hex Number_toString (SKYLA_CHAIN g)
          {| ProofLedger.t_from := from;
             ProofLedger.t_to := to;
             ProofLedger.t_delta := dist;
             ProofLedger.t_prevHash := prevHash;
             ProofLedger.t_deltaLogic := Some deltaLogic;
             ProofLedger.t_deltaTemporal := Some deltaTemporal;
             ProofLedger.t_divergence := Some div |} in
      let '(tblA, postIntegrityA) :=
        Integrity.updateIntegrity (now 0%nat) tbl actorA domain div in
      let '(tblB, postIntegrityB) :=
        Integrity.updateIntegrity (now 1%nat) tblA actorB domain
          (Math_min (mul div (Num 0.5)) (Num 1)) in
      (* [SKYLA_CHAIN[SKYLA_CHAIN.length - 1]]: the chain was just extended,
         so the read finds the new node; the fallbacks below are never used. *)
      let newProofNode := last chain in
      ({| SKYLA_INTEGRITY := tblB; SKYLA_CHAIN := chain |},
       TransitionAccepted true to
         (from_option ProofLedger.hash ""%string newProofNode)
         (from_option ProofLedger.idx 0%nat newProofNode)
         delta verdict (Math_max (Num 0) (Math_min (Num 1) (sub (Num 1) div)))
         (<[actorB := integrity_change preIntegrityB postIntegrityB]>
            (<[actorA := integrity_change preIntegrityA postIntegrityA]> ∅))
         true (length chain)).

End Externals.

End Routes.

(* ===================================================================== *)
(** ** app/api/transition/route.ts and app/api/detect/route.ts *)
(* ===================================================================== *)

(** The app-router variants of the two handlers, kept in the same file as
    the integrity library.  They have no validation and no [try]/[catch]:
    an exception leaves the handler. *)
Module AppRouter.
Import JS Routes.

(** [vectorDistance(a, b)] applied to what the two lookups returned: its
    first statement reads [a.length] and then [b.length], and reading a
    property of [undefined] throws a [TypeError]. *)
Definition call_vectorDistance (a b : value) : completion number :=
  match a, b with
  | VUndefined, _ => Throw TypeError
  | _, VUndefined => Throw TypeError
  | _, _ => Return (Fraud.vectorDistance (as_numbers a) (as_numbers b))
  end.

(** [POST] of [app/api/detect/route.ts] *)
Definition POST_detect (g : Globals) (req : Request)
  : completion (Globals * DetectResponse) :=
  let from := from req in
  let to := to req in
  let actorA := actorA_of req in
  let actorB := actorB_of req in
  let domain := default "symbolic.state"%string (domain req) in
  match call_vectorDistance (get Glyphs.EMBEDDINGS from) (get Glyphs.EMBEDDINGS to) with
  | Throw e => Throw e
  | Return dist =>
    let isForbidden := Fraud.forbiddenTransition from to in
    let deltaLogic := Fraud.logicResidualFromRule isForbidden in
    let deltaTemporal := Fraud.temporalResidualFromDistance dist Fraud.CAP_default in
    let div := Fraud.divergence deltaLogic deltaTemporal
                 Fraud.context_default Fraud.weights_default in
    let verdict := Fraud.verdictFromDivergence deltaLogic deltaTemporal div in
    let '(tbl, integrityA) := Integrity.getIntegrity (SKYLA_INTEGRITY g) actorA domain in
    let '(tbl, integrityB) := Integrity.getIntegrity tbl actorB domain in
    let '(tbl, detailsA) := Integrity.getIntegrityDetails tbl actorA domain in
    let '(tbl, detailsB) := Integrity.getIntegrityDetails tbl actorB domain in
    let consensusStrength := Math_max (Num 0) (Math_min (Num 1) (sub (Num 1) div)) in
    Return
      ({| SKYLA_INTEGRITY := tbl; SKYLA_CHAIN := SKYLA_CHAIN g |},
       DetectOk dist
         {| logicResidual := deltaLogic; temporalResidual := deltaTemporal;
            divergence := div |}
         verdict consensusStrength
         (<[actorB := actor_info integrityB detailsB]>
            (<[actorA := actor_info integrityA detailsA]> ∅)))
  end.

Section Externals.

Variable sha256_hex : string -> string.
Variable Number_toString : number -> string.

(** [POST] of [app/api/transition/route.ts]; [now k] is the [k]-th reading
    of [Date.now()]. *)
Definition POST_transition (now : nat -> Z) (g : Globals) (req : Request)
  : completion (Globals * TransitionResponse) :=
  let from := from req in
  let to := to req in
  let actorA := actorA_of req in
  let actorB := actorB_of req in
  let domain := domain_of req in
  match call_vectorDistance (get Glyphs.EMBEDDINGS from) (get Glyphs.EMBEDDINGS to) with
  | Throw e => Throw e
  | Return dist =>
    let isForbidden := Fraud.forbiddenTransition from to in
    let deltaLogic := Fraud.logicResidualFromRule isForbidden in
    let deltaTemporal := Fraud.temporalResidualFromDistance dist Fraud.CAP_default in
    let div := Fraud.divergence deltaLogic deltaTemporal
                 Fraud.context_default Fraud.weights_default in
    let verdict := Fraud.verdictFromDivergence deltaLogic deltaTemporal div in
    let delta := {| logicResidual := deltaLogic; temporalResidual := deltaTemporal;
                    divergence := div |} in
    let '(tbl, preIntegrityA) := Integrity.getIntegrity (SKYLA_INTEGRITY g) actorA domain in
    let '(tbl, preIntegrityB) := Integrity.getIntegrity tbl actorB domain in
    if Fraud.Verdict_eqb verdict Fraud.REJECT then
      let '(tblA, postIntegrityA) :=
        Integrity.updateIntegrity (now 0%nat) tbl actorA domain div in
      let '(tblB, postIntegrityB) :=
        Integrity.updateIntegrity (now 1%nat) tblA actorB domain
          (Math_min (mul div (Num 0.3)) (Num 1)) in
      Return
        ({| SKYLA_INTEGRITY := tblB; SKYLA_CHAIN := SKYLA_CHAIN g |},
         TransitionRejected 400 false delta verdict
           (<[actorB := integrity_change preIntegrityB postIntegrityB]>
              (<[actorA := integrity_change preIntegrityA postIntegrityA]> ∅))
           false)
    else
      let prevHash :=
        match last (SKYLA_CHAIN g) with
        | Some tail => ProofLedger.hash tail
        | None => "GENESIS"%string
        end in
      let chain :=
        ProofLedger.appendProof sha256_hex Number_toString (SKYLA_CHAIN g)
          {| ProofLedger.t_from := from;
             ProofLedger.t_to := to;
             ProofLedger.t_delta := dist;
             ProofLedger.t_prevHash := prevHash;
             ProofLedger.t_deltaLogic := Some deltaLogic;
             ProofLedger.t_deltaTemporal := Some deltaTemporal;
             ProofLedger.t_divergence := Some div |} in
      let '(tblA, postIntegrityA) :=
        Integrity.updateIntegrity (now 0%nat) tbl actorA domain div in
      let '(tblB, postIntegrityB) :=
        Integrity.updateIntegrity (now 1%nat) tblA actorB domain
          (Math_min (mul div (Num 0.5)) (Num 1)) in
      let newProofNode := last chain in
      Return
        ({| SKYLA_INTEGRITY := tblB; SKYLA_CHAIN := chain |},
         TransitionAccepted true to
           (from_option ProofLedger.hash ""%string newProofNode)
           (from_option ProofLedger.idx 0%nat newProofNode)
           delta verdict (Math_max (Num 0) (Math_min (Num 1) (sub (Num 1) div)))
           (<[actorB := integrity_change preIntegrityB postIntegrityB]>
              (<[actorA := integrity_change preIntegrityA postIntegrityA]> ∅))
           true (length chain))
  end.

End Externals.

End AppRouter.

(* ===================================================================== *)
(** ** Vocabulary of the statements *)
(* ===================================================================== *)

Module Vocabulary.
Import JS Fraud Integrity ProofLedger Routes.

(** The values both handlers compute after the validation check, collected
    in a record. *)
Record Metrics : Type := {
  m_dist : number;
  m_isForbidden : bool;
  m_deltaLogic : number;
  m_deltaTemporal : number;
  m_div : number;
  m_verdict : Verdict
}.

Definition metrics (from to : string) : Metrics :=
  let dist := vectorDistance (as_numbers (get Glyphs.EMBEDDINGS from))
                             (as_numbers (get Glyphs.EMBEDDINGS to)) in
  let isForbidden := forbiddenTransition from to in
  let deltaLogic := logicResidualFromRule isForbidden in
  let deltaTemporal := temporalResidualFromDistance dist CAP_default in
  let div := Fraud.divergence deltaLogic deltaTemporal
               context_default weights_default in
  {| m_dist := dist; m_isForbidden := isForbidden; m_deltaLogic := deltaLogic;
     m_deltaTemporal := deltaTemporal; m_div := div;
     m_verdict := verdictFromDivergence deltaLogic deltaTemporal div |}.

(** The [delta] object of the responses. *)
Definition delta_of (m : Metrics) : Delta :=
  {| logicResidual := m_deltaLogic m; temporalResidual := m_deltaTemporal m;
     divergence := m_div m |}.

(** The condition of the validation check,
    [!EMBEDDINGS[from] || !EMBEDDINGS[to]]. *)
Definition invalid_states (from to : string) : bool :=
  negb (truthy (get Glyphs.EMBEDDINGS from)) || negb (truthy (get Glyphs.EMBEDDINGS to)).

(** The [consensusStrength] of the responses,
    [Math.max(0, Math.min(1, 1 - div))]. *)
Definition consensusStrength (div : number) : number :=
  Math_max (Num 0) (Math_min (Num 1) (sub (Num 1) div)).

(** Agreement with a figure quoted to three decimals. *)
Definition approx3 (x : number) (c : R) : Prop :=
  exists r : R, x = Num r /\ Rabs (r - c) <= 0.0005.

(** A context object whose values are real numbers. *)
Definition real_context (ctx : list (string * R)) : list (string * number) :=
  map (fun kv => (fst kv, Num (snd kv))) ctx.

(** The context loop of [divergence] on reals. *)
Definition context_sum (ctx : list (string * R)) (s : R) : R :=
  fold_left (fun s kv => s + snd kv * snd kv * 0.25) ctx s.

(** The integrity [updateIntegrity] reads from the table before it writes. *)
Definition prior_integrity (tbl : Table) (actorId domain : string) : number :=
  match tbl !! key actorId domain with Some p => integrity p | None => Num 0.85 end.

(** The interaction count [updateIntegrity] reads before it writes. *)
Definition prior_count (tbl : Table) (actorId domain : string) : nat :=
  match tbl !! key actorId domain with Some p => interactionCount p | None => 0%nat end.

(** The EWMA blend of a prior integrity with an adjusted penalty, clamped. *)
Definition blend (prevI adjusted : number) : number :=
  Math_max (Num 0.05)
    (Math_min (Num 1)
       (add (mul (sub (Num 1) ALPHA) prevI) (mul ALPHA (sub (Num 1) adjusted)))).

(** [node] with one optional field replaced. *)
Definition with_deltaLogic (v : option number) (u : Unhashed) : Unhashed :=
  {| n_idx := n_idx u; n_from := n_from u; n_to := n_to u; n_delta := n_delta u;
     n_prevHash := n_prevHash u; n_deltaLogic := v;
     n_deltaTemporal := n_deltaTemporal u; n_divergence := n_divergence u |}.

Definition with_deltaTemporal (v : option number) (u : Unhashed) : Unhashed :=
  {| n_idx := n_idx u; n_from := n_from u; n_to := n_to u; n_delta := n_delta u;
     n_prevHash := n_prevHash u; n_deltaLogic := n_deltaLogic u;
     n_deltaTemporal := v; n_divergence := n_divergence u |}.

Definition with_divergence (v : option number) (u : Unhashed) : Unhashed :=
  {| n_idx := n_idx u; n_from := n_from u; n_to := n_to u; n_delta := n_delta u;
     n_prevHash := n_prevHash u; n_deltaLogic := n_deltaLogic u;
     n_deltaTemporal := n_deltaTemporal u; n_divergence := v |}.

(** The ledger invariant: sequential indices, the genesis sentinel at
    index 0, and each later node linked to the hash of its predecessor. *)
Definition chain_linked (chain : list ProofNode) : Prop :=
  (forall i node, chain !! i = Some node -> idx node = i) /\
  (forall node, chain !! 0%nat = Some node -> prevHash node = "GENESIS"%string) /\
  (forall i prev node,
      chain !! i = Some prev -> chain !! S i = Some node ->
      prevHash node = hash prev).

(** [SKYLA_CHAIN.length ? SKYLA_CHAIN[SKYLA_CHAIN.length - 1].hash : 'GENESIS'] *)
Definition tail_hash (chain : list ProofNode) : string :=
  match last chain with
  | Some tail => hash tail
  | None => "GENESIS"%string
  end.

(** The share of the divergence the counterpart actor receives. *)
Definition counterpart_share (v : Verdict) : R :=
  match v with REJECT => 0.3 | _ => 0.5 end.

(** The [chainExtended] field of a response, when it has one. *)
Definition chainExtended_of (resp : TransitionResponse) : option bool :=
  match resp with
  | TransitionInvalid _ _ => None
  | TransitionRejected _ _ _ _ _ chainExtended => Some chainExtended
  | TransitionAccepted _ _ _ _ _ _ _ _ chainExtended _ => Some chainExtended
  end.

(** The transition record the handler passes to [appendProof]. *)
Definition ledger_entry (g : Globals) (req : Request) : Transition :=
  let m := metrics (from req) (to req) in
  {| t_from := from req; t_to := to req; t_delta := m_dist m;
     t_prevHash := tail_hash (SKYLA_CHAIN g);
     t_deltaLogic := Some (m_deltaLogic m);
     t_deltaTemporal := Some (m_deltaTemporal m);
     t_divergence := Some (m_div m) |}.

(** The table after the two updates of a request that passed the validation check. *)
Definition table_after (now : nat -> Z) (g : Globals) (req : Request) : Table :=
  let m := metrics (from req) (to req) in
  let tblA := fst (updateIntegrity (now 0%nat) (SKYLA_INTEGRITY g)
                     (actorA_of req) (domain_of req) (m_div m)) in
  fst (updateIntegrity (now 1%nat) tblA (actorB_of req) (domain_of req)
         (Math_min (mul (Num (counterpart_share (m_verdict m))) (m_div m)) (Num 1))).

(** Serving a sequence of transition requests, oldest first; each request
    comes with the clock readings made while it is served. *)
Fixpoint serve (sha256_hex : string -> string) (Number_toString : number -> string)
    (g : Globals) (reqs : list ((nat -> Z) * Request)) : Globals :=
  match reqs with
  | [] => g
  | (now, req) :: reqs' =>
      serve sha256_hex Number_toString
        (fst (transition sha256_hex Number_toString now g req)) reqs'
  end.

(** The number of requests of a run that are answered with an acceptance. *)
Fixpoint accepted (sha256_hex : string -> string) (Number_toString : number -> string)
    (g : Globals) (reqs : list ((nat -> Z) * Request)) : nat :=
  match reqs with
  | [] => 0%nat
  | (now, req) :: reqs' =>
      let '(g', resp) := transition sha256_hex Number_toString now g req in
      ((match resp with TransitionAccepted _ _ _ _ _ _ _ _ _ _ => 1 | _ => 0 end)
       + accepted sha256_hex Number_toString g' reqs')%nat
  end.

(** [updateIntegrity(actorId, domain, div)] called [n] times in a row. *)
Fixpoint update_times (n : nat) (now : Z) (tbl : Table) (actorId domain : string)
    (div : number) : Table :=
  match n with
  | O => tbl
  | S n' =>
      fst (updateIntegrity now (update_times n' now tbl actorId domain div)
             actorId domain div)
  end.

(** A request that leaves the optional fields out. *)
Definition request (from to : string) : Request :=
  {| from := from; to := to; actorA := None; actorB := None; domain := None |}.

(** Stand-ins for the two external functions, to instantiate the handlers
    in closed examples: the digest of a string is the string itself, and a
    number is rendered by a one-letter tag. *)
Definition example_digest (data : string) : string := data.

Definition example_toString (x : number) : string :=
  match x with Num _ => "n"%string | NaN => "NaN"%string end.

(** A clock that always reads 0. *)
Definition example_clock (k : nat) : Z := 0%Z.

(** The sum of the squared coordinate differences of two real vectors over
    their common prefix. *)
Fixpoint sq_dist (xs ys : list R) : R :=
  match xs, ys with
  | x :: xs', y :: ys' => (x - y) * (x - y) + sq_dist xs' ys'
  | _, _ => 0
  end.

(** A property name inherited from [Object.prototype]. *)
Definition inherited_name (s : string) : Prop :=
  In s (Object_keys Object_prototype).

(** A record as the tracker is meant to keep it: stored under the key of
    its own actor and domain, updated at least once, with an integrity in
    [0.05, 1] and an average divergence in [0, 1]. *)
Definition record_ok (k : string) (row : IntegrityRow) : Prop :=
  key (actorId row) (Integrity.domain row) = k /\
  (1 <= interactionCount row)%nat /\
  exists i a : R,
    integrity row = Num i /\ 0.05 <= i <= 1 /\
    averageDivergence row = Num a /\ 0 <= a <= 1.

Definition table_ok (tbl : Table) : Prop :=
  forall k row, tbl !! k = Some row -> record_ok k row.

(** [updateIntegrity(actorId, domain, div)] called once for each divergence
    of a list, in order. *)
Fixpoint update_each (divs : list number) (now : Z) (tbl : Table)
    (actorId domain : string) : Table :=
  match divs with
  | [] => tbl
  | div :: divs' =>
      update_each divs' now (fst (updateIntegrity now tbl actorId domain div))
        actorId domain
  end.


(** An identifier without [':']. *)
Fixpoint colon_free (s : string) : bool :=
  match s with
  | EmptyString => true
  | String c s' => negb (Ascii.eqb c ":"%char) && colon_free s'
  end.

(** The average divergence [updateIntegrity] reads before it writes. *)
Definition prior_average (tbl : Table) (actorId domain : string) : number :=
  match tbl !! key actorId domain with
  | Some p => averageDivergence p
  | None => Num 0.3
  end.

(** A divergence as the handlers produce it: a real number in [0, 1]. *)
Definition unit_divergence (x : number) : Prop :=
  exists r : R, x = Num r /\ 0 <= r <= 1.

(** The reasons [generateDBTReasons] can push. *)
Definition reason_logic_violated (from to : string) : string :=
  "Logic Baseline violated: forbidden transition " +:+ from +:+ "→" +:+ to.

Definition reason_logic_satisfied : string :=
  "Logic Baseline satisfied: valid symbolic transition".

Definition reason_temporal_satisfied (Number_toFixed : number -> nat -> string)
    (deltaTemporal : number) : string :=
  "Temporal Baseline satisfied: pace residual " +:+
  Number_toFixed deltaTemporal 3%nat +:+ " within normal range".

Definition reason_combined (Number_toFixed : number -> nat -> string)
    (div : number) : string :=
  "Combined divergence: " +:+ Number_toFixed div 3%nat +:+
  " (consensus strength: " +:+
  Number_toFixed (mul (sub (Num 1) (Math_min (Num 1) div)) (Num 100)) 1%nat +:+ "%)".

(** A stand-in for [toFixed] in closed examples. *)
Definition example_toFixed (x : number) (digits : nat) : string :=
  example_toString x.

End Vocabulary.

(* ===================================================================== *)
(** * Properties *)
(* ===================================================================== *)

Import JS.
Import Vocabulary.

(** ** The relational operators on real operands *)

Lemma ge_Num (x y : R) : ge (Num x) (Num y) = true <-> x >= y.
Proof. unfold ge. destruct (Rge_dec x y); split; intros; try easy. Qed.

Lemma gt_Num (x y : R) : gt (Num x) (Num y) = true <-> x > y.
Proof. unfold gt. destruct (Rgt_dec x y); split; intros; try easy. Qed.

Lemma ge_Num_false (x y : R) : ge (Num x) (Num y) = false <-> x < y.
Proof. unfold ge. destruct (Rge_dec x y); split; intros; try easy; lra. Qed.

Lemma gt_Num_false (x y : R) : gt (Num x) (Num y) = false <-> x <= y.
Proof. unfold gt. destruct (Rgt_dec x y); split; intros; try easy; lra. Qed.

Lemma le_Num (x y : R) : le (Num x) (Num y) = true <-> x <= y.
Proof. unfold le. rewrite ge_Num. lra. Qed.

(** Decide the comparisons of real constants left in a goal. *)
Ltac decide_cmp :=
  repeat match goal with
    | |- context [Rge_dec ?a ?b] => destruct (Rge_dec a b); try lra
    | |- context [Rgt_dec ?a ?b] => destruct (Rgt_dec a b); try lra
    | |- context [Rlt_dec ?a ?b] => destruct (Rlt_dec a b); try lra
    | |- context [Rle_dec ?a ?b] => destruct (Rle_dec a b); try lra
    | |- context [Req_dec_T ?a ?b] => destruct (Req_dec_T a b); try lra
    end.

(** Evaluate [Rmin] and [Rmax] on operands that [lra] can order. *)
Ltac eval_minmax :=
  repeat match goal with
    | |- context [Rmin ?a ?b] =>
        first [rewrite (Rmin_left a b) by lra | rewrite (Rmin_right a b) by lra]
    | |- context [Rmax ?a ?b] =>
        first [rewrite (Rmax_left a b) by lra | rewrite (Rmax_right a b) by lra]
    end.

(** Read the inlined computations of a handler as the fields of [metrics]. *)
Ltac fold_metrics req :=
  cbv zeta;
  change (negb (truthy (get Glyphs.EMBEDDINGS (Routes.from req)))
          || negb (truthy (get Glyphs.EMBEDDINGS (Routes.to req))))
    with (invalid_states (Routes.from req) (Routes.to req));
  change (Fraud.verdictFromDivergence _ _ _)
    with (m_verdict (metrics (Routes.from req) (Routes.to req)));
  change (Fraud.divergence _ _ _ _)
    with (m_div (metrics (Routes.from req) (Routes.to req)));
  change (Fraud.temporalResidualFromDistance _ _)
    with (m_deltaTemporal (metrics (Routes.from req) (Routes.to req)));
  change (Fraud.logicResidualFromRule _)
    with (m_deltaLogic (metrics (Routes.from req) (Routes.to req)));
  change (Fraud.vectorDistance _ _)
    with (m_dist (metrics (Routes.from req) (Routes.to req))).

(** ** The verdict cascade *)

Section VerdictCascade.
Import Fraud Vocabulary.

(** The cascade on any three numbers, with the comparisons of the
    language (false as soon as an operand is NaN). *)
Lemma verdict_cascade_numbers (deltaLogic deltaTemporal div : number) :
  let v := verdictFromDivergence deltaLogic deltaTemporal div in
  (ge deltaLogic (Num 1) = true -> v = REJECT) /\
  (ge deltaLogic (Num 1) = false ->
     (gt div (Num 0.85) = true -> v = REJECT) /\
     (gt div (Num 0.85) = false -> gt div (Num 0.65) = true -> v = SUSPICIOUS) /\
     (gt div (Num 0.65) = false -> gt div (Num 0.45) = true -> v = CAUTION) /\
     (gt div (Num 0.45) = false -> v = VALID)).
Proof.
  cbv zeta. unfold verdictFromDivergence. split.
  - intros ->. reflexivity.
  - intros ->. repeat split.
    + intros ->. reflexivity.
    + intros -> ->. reflexivity.
    + intros H65 H45.
      destruct div as [x|]; [|discriminate].
      apply gt_Num_false in H65. apply gt_Num in H45.
      unfold gt. decide_cmp. reflexivity.
    + intros H45.
      destruct div as [x|]; [|reflexivity].
      apply gt_Num_false in H45.
      unfold gt. decide_cmp. reflexivity.
Qed.

(** The same cascade read on real operands. *)
Lemma verdict_cascade_reals (l t d : R) :
  let v := verdictFromDivergence (Num l) (Num t) (Num d) in
  (l >= 1 -> v = REJECT) /\
  (l < 1 -> d > 0.85 -> v = REJECT) /\
  (l < 1 -> 0.65 < d <= 0.85 -> v = SUSPICIOUS) /\
  (l < 1 -> 0.45 < d <= 0.65 -> v = CAUTION) /\
  (l < 1 -> d <= 0.45 -> v = VALID).
Proof.
  cbv zeta. unfold verdictFromDivergence, ge, gt.
  repeat split; intros; decide_cmp; reflexivity.
Qed.

(** C1. For every logic residual, temporal residual and divergence, the
    verdict follows the ordered cascade: [logicResidual >= 1] rejects,
    whatever the divergence; otherwise [divergence > 0.85] rejects;
    otherwise [divergence > 0.65] is SUSPICIOUS; otherwise
    [divergence > 0.45] is CAUTION; otherwise the verdict is VALID.  The
    comparisons are strict: with [logicResidual < 1], a divergence of
    exactly 0.85 is not REJECT (it is SUSPICIOUS) and one of exactly 0.45 is
    not CAUTION (it is VALID).  The cascade is stated twice: on any numbers
    with the comparisons of the language, and on real operands with the
    order of the reals. *)
Theorem verdict_cascade :
  (forall deltaLogic deltaTemporal div : number,
      let v := verdictFromDivergence deltaLogic deltaTemporal div in
      (ge deltaLogic (Num 1) = true -> v = REJECT) /\
      (ge deltaLogic (Num 1) = false ->
         (gt div (Num 0.85) = true -> v = REJECT) /\
         (gt div (Num 0.85) = false -> gt div (Num 0.65) = true -> v = SUSPICIOUS) /\
         (gt div (Num 0.65) = false -> gt div (Num 0.45) = true -> v = CAUTION) /\
         (gt div (Num 0.45) = false -> v = VALID))) /\
  (forall l t d : R,
      let v := verdictFromDivergence (Num l) (Num t) (Num d) in
      (l >= 1 -> v = REJECT) /\
      (l < 1 -> d > 0.85 -> v = REJECT) /\
      (l < 1 -> 0.65 < d <= 0.85 -> v = SUSPICIOUS) /\
      (l < 1 -> 0.45 < d <= 0.65 -> v = CAUTION) /\
      (l < 1 -> d <= 0.45 -> v = VALID)) /\
  (forall (l : R) (t : number),
      l < 1 ->
      verdictFromDivergence (Num l) t (Num 0.85) = SUSPICIOUS /\
      verdictFromDivergence (Num l) t (Num 0.45) = VALID).
Proof.
  split; [exact verdict_cascade_numbers|]. split; [exact verdict_cascade_reals|].
  intros l t Hl. unfold verdictFromDivergence, ge, gt.
  split; decide_cmp; reflexivity.
Qed.

End VerdictCascade.

(** ** Evaluating the engine on real operands *)

Section EngineOnReals.
Import Fraud Vocabulary.

Lemma Math_sqrt_square (x y : R) :
  0 <= y -> x = y * y -> Math_sqrt (Num x) = Num y.
Proof.
  intros Hy ->. unfold Math_sqrt.
  destruct (Rlt_dec (y * y) 0) as [H|H]; [nra|].
  now rewrite sqrt_square.
Qed.

Lemma Math_sqrt_nonneg (x : R) : 0 <= x -> Math_sqrt (Num x) = Num (sqrt x).
Proof. intros Hx. unfold Math_sqrt. destruct (Rlt_dec x 0); [lra | reflexivity]. Qed.

Lemma sqrt_le_bound (x b : R) : 0 <= b -> x <= b * b -> sqrt x <= b.
Proof.
  intros Hb Hx. rewrite <- (sqrt_square b Hb). now apply sqrt_le_1_alt.
Qed.

(** Below the cap the temporal residual is the distance divided by 5; from
    the cap on it saturates at 1. *)
Lemma temporalResidual_real (d : R) :
  temporalResidualFromDistance (Num d) CAP_default = Num (Rmin 1 (d / 5)).
Proof.
  unfold temporalResidualFromDistance, CAP_default, JS.div. cbn.
  destruct (Req_dec_T 5 0); [lra | reflexivity].
Qed.

Lemma divergence_default_real (l t : R) :
  divergence (Num l) (Num t) context_default weights_default
  = Num (sqrt (0.6 * (l * l) + 0.4 * (t * t))).
Proof.
  unfold divergence, context_default, weights_default. cbn -[Math_sqrt].
  apply Math_sqrt_nonneg. nra.
Qed.

End EngineOnReals.

(** ** Scenario B: chaos to conflict *)

Section ScenarioB.
Import Fraud Routes Vocabulary.

Lemma vectorDistance_chaos_conflict :
  vectorDistance (as_numbers (get Glyphs.EMBEDDINGS "chaos"))
                 (as_numbers (get Glyphs.EMBEDDINGS "conflict")) = Num 0.4.
Proof.
  unfold vectorDistance. cbn -[Math_sqrt].
  apply Math_sqrt_square; lra.
Qed.

Lemma metrics_chaos_conflict :
  metrics "chaos" "conflict" =
  {| m_dist := Num 0.4; m_isForbidden := false; m_deltaLogic := Num 0;
     m_deltaTemporal := Num 0.08; m_div := Num (sqrt 0.00256);
     m_verdict := VALID |}.
Proof.
  unfold metrics. rewrite vectorDistance_chaos_conflict.
  change (forbiddenTransition "chaos" "conflict") with false.
  cbn [logicResidualFromRule].
  rewrite temporalResidual_real.
  replace (Rmin 1 (0.4 / 5)) with 0.08
    by (unfold Rmin; destruct (Rle_dec 1 (0.4 / 5)); lra).
  rewrite divergence_default_real.
  replace (0.6 * (0 * 0) + 0.4 * (0.08 * 0.08)) with 0.00256 by lra.
  assert (Hd : sqrt 0.00256 <= 0.06) by (apply sqrt_le_bound; lra).
  f_equal. unfold verdictFromDivergence, ge, gt. decide_cmp. reflexivity.
Qed.

(** C7 as stated fails: the raw distance of chaos to conflict is 0.4, which
    is not 0.346 to three decimals (and the temporal residual is 0.08, not
    0.069). *)
Lemma scenarioB_as_stated_fails :
  ~ (approx3 (m_dist (metrics "chaos" "conflict")) 0.346 /\
     approx3 (temporalResidual (delta_of (metrics "chaos" "conflict"))) 0.069 /\
     logicResidual (delta_of (metrics "chaos" "conflict")) = Num 0 /\
     m_verdict (metrics "chaos" "conflict") = VALID).
Proof.
  rewrite metrics_chaos_conflict. cbn.
  intros [[r [Hr Habs]] _]. injection Hr as <-.
  revert Habs. unfold Rabs. destruct (Rcase_abs (0.4 - 0.346)); lra.
Qed.

(** C7, amended. Evaluating chaos to conflict with the reference
    embeddings yields rawDistance = 0.4 (0.400 to three decimals),
    temporalResidual = 0.08 (0.080 to three decimals), logicResidual = 0
    and the verdict VALID. *)
Theorem scenarioB_chaos_conflict :
  m_dist (metrics "chaos" "conflict") = Num 0.4 /\
  temporalResidual (delta_of (metrics "chaos" "conflict")) = Num 0.08 /\
  approx3 (m_dist (metrics "chaos" "conflict")) 0.400 /\
  approx3 (temporalResidual (delta_of (metrics "chaos" "conflict"))) 0.080 /\
  logicResidual (delta_of (metrics "chaos" "conflict")) = Num 0 /\
  m_verdict (metrics "chaos" "conflict") = VALID.
Proof.
  rewrite metrics_chaos_conflict. cbn. repeat split.
  - exists 0.4. split; [reflexivity|].
    replace (0.4 - 0.400) with 0 by lra. rewrite Rabs_R0. lra.
  - exists 0.08. split; [reflexivity|].
    replace (0.08 - 0.080) with 0 by lra. rewrite Rabs_R0. lra.
Qed.

End ScenarioB.

(** ** Monotonicity of the divergence *)

Section DivergenceMonotone.
Import Fraud Vocabulary.

Lemma context_loop_real (ctx : list (string * R)) (s : R) :
  fold_left (fun s kv => add s (mul (pow2 (snd kv)) (Num 0.25)))
            (real_context ctx) (Num s)
  = Num (context_sum ctx s).
Proof.
  revert s. induction ctx as [|[k v] ctx IH]; intros s; [reflexivity|].
  cbn. apply IH.
Qed.

Lemma context_sum_mono (ctx : list (string * R)) (s s' : R) :
  s <= s' -> context_sum ctx s <= context_sum ctx s'.
Proof.
  revert s s'. induction ctx as [|[k v] ctx IH]; intros s s' Hs; [exact Hs|].
  cbn. apply IH. lra.
Qed.

Lemma context_sum_nonneg (ctx : list (string * R)) (s : R) :
  0 <= s -> 0 <= context_sum ctx s.
Proof.
  revert s. induction ctx as [|[k v] ctx IH]; intros s Hs; [exact Hs|].
  cbn. apply IH. nra.
Qed.

Lemma divergence_real (a b l t : R) (ctx : list (string * R)) :
  0 <= a -> 0 <= b ->
  divergence (Num l) (Num t) (real_context ctx) {| wL := Num a; wT := Num b |}
  = Num (sqrt (context_sum ctx (a * (l * l) + b * (t * t)))).
Proof.
  intros Ha Hb. unfold divergence. cbn [wL wT pow2 mul add lift2].
  rewrite context_loop_real. apply Math_sqrt_nonneg.
  apply context_sum_nonneg. nra.
Qed.

(** Monotonicity for any non-negative weights. *)
Lemma divergence_monotone_weights (a b l l' t t' : R) (ctx : list (string * R)) :
  0 <= a -> 0 <= b -> 0 <= l <= l' -> 0 <= t <= t' ->
  le (divergence (Num l) (Num t) (real_context ctx) {| wL := Num a; wT := Num b |})
     (divergence (Num l') (Num t') (real_context ctx) {| wL := Num a; wT := Num b |})
  = true.
Proof.
  intros Ha Hb Hl Ht. rewrite !divergence_real by assumption.
  apply le_Num, sqrt_le_1_alt, context_sum_mono.
  assert (l * l <= l' * l') by nra. assert (t * t <= t' * t') by nra. nra.
Qed.

(** C8. With the weights of the code, the divergence is non-decreasing in
    the logic residual when the temporal residual and the context are held
    fixed, and non-decreasing in the temporal residual when the logic
    residual and the context are held fixed, for non-negative residuals. *)
Theorem divergence_monotone (l l' t t' : R) (ctx : list (string * R)) :
  0 <= l <= l' -> 0 <= t <= t' ->
  le (divergence (Num l) (Num t) (real_context ctx) weights_default)
     (divergence (Num l') (Num t) (real_context ctx) weights_default) = true /\
  le (divergence (Num l) (Num t) (real_context ctx) weights_default)
     (divergence (Num l) (Num t') (real_context ctx) weights_default) = true.
Proof.
  intros Hl Ht. unfold weights_default.
  split; apply divergence_monotone_weights; lra.
Qed.

Lemma divergence_monotone_witness :
  (0 <= 0 <= 1 /\ 0 <= 0.2 <= 0.5) /\
  le (divergence (Num 0) (Num 0.2) (real_context [("pace"%string, 0.3)]) weights_default)
     (divergence (Num 1) (Num 0.2) (real_context [("pace"%string, 0.3)]) weights_default)
  = true /\
  le (divergence (Num 0) (Num 0.2) (real_context [("pace"%string, 0.3)]) weights_default)
     (divergence (Num 0) (Num 0.5) (real_context [("pace"%string, 0.3)]) weights_default)
  = true.
Proof.
  split; [lra|].
  apply (divergence_monotone 0 1 0.2 0.5 [("pace"%string, 0.3)]); lra.
Defined.

End DivergenceMonotone.

(** ** The integrity tracker *)

Section IntegrityTracker.
Import Integrity Vocabulary.

Lemma updateIntegrity_row (now : Z) (tbl : Table) (actorId domain : string) (div : number) :
  exists row,
    updateIntegrity now tbl actorId domain div
      = (<[key actorId domain := row]> tbl, integrity row) /\
    integrity row
      = blend (prior_integrity tbl actorId domain)
              (adjustedPenalty div (prior_count tbl actorId domain)) /\
    interactionCount row = S (prior_count tbl actorId domain) /\
    Integrity.actorId row = actorId /\ Integrity.domain row = domain /\
    lastUpdated row = now.
Proof.
  unfold updateIntegrity, prior_integrity, prior_count, blend.
  eexists. split; [reflexivity|]. cbn. repeat split. lia.
Qed.

Lemma coldStartFactor_zero : coldStartFactor 0 = Num 0.
Proof.
  unfold coldStartFactor, COLD_START_THRESHOLD, of_nat, JS.div. cbn.
  destruct (Req_dec_T 5 0); [lra|]. f_equal.
  unfold Rmin. destruct (Rle_dec 1 (0 / 5)); lra.
Qed.

Lemma coldStartFactor_full (n : nat) : (5 <= n)%nat -> coldStartFactor n = Num 1.
Proof.
  intros Hn. apply le_INR in Hn. change (INR 5) with (1+1+1+1+1) in Hn.
  unfold coldStartFactor, COLD_START_THRESHOLD, of_nat, JS.div. cbn.
  destruct (Req_dec_T 5 0); [lra|]. f_equal.
  unfold Rmin. destruct (Rle_dec 1 (INR n / 5)); lra.
Qed.

Lemma mul_comm (a b : number) : mul a b = mul b a.
Proof. destruct a, b; cbn; try reflexivity. f_equal. lra. Qed.

Lemma mul_one_r (a : number) : mul a (Num 1) = a.
Proof. destruct a; cbn; try reflexivity. f_equal. lra. Qed.

(** C6. In every update call, with [p = min(1, observedDivergence)], the
    adjusted penalty that enters the stored integrity equals exactly
    [0.3 * p] when the record's prior interaction count is 0 (or the record
    does not exist yet), and exactly [p] whenever the prior count is at
    least [COLD_START_THRESHOLD] = 5. *)
Theorem cold_start_penalty :
  forall (now : Z) (tbl : Table) (actorId domain : string) (div : number),
    let n := prior_count tbl actorId domain in
    let p := penalty div in
    exists row,
      fst (updateIntegrity now tbl actorId domain div) !! key actorId domain = Some row /\
      integrity row
        = blend (prior_integrity tbl actorId domain) (adjustedPenalty div n) /\
      (n = 0%nat -> adjustedPenalty div n = mul (Num 0.3) p) /\
      ((5 <= n)%nat -> adjustedPenalty div n = p).
Proof.
  intros now tbl a d dv n p.
  destruct (updateIntegrity_row now tbl a d dv) as (row & -> & Hi & _).
  exists row. cbn [fst]. rewrite lookup_insert_eq. repeat split; [exact Hi| |].
  - intros ->. subst p. unfold adjustedPenalty. rewrite coldStartFactor_zero.
    rewrite mul_comm. f_equal. cbn. f_equal. lra.
  - intros Hn. subst p. unfold adjustedPenalty. rewrite coldStartFactor_full by exact Hn.
    cbn [mul add lift2]. replace (0.3 + 0.7 * 1) with 1 by lra. apply mul_one_r.
Qed.

End IntegrityTracker.

Section IntegrityBounds.
Import Integrity Vocabulary.

Lemma blend_real (i a : R) :
  exists r, blend (Num i) (Num a) = Num r /\ 0.05 <= r <= 1.
Proof.
  unfold blend, ALPHA. cbn. eexists. split; [reflexivity|].
  unfold Rmax, Rmin.
  repeat match goal with |- context [Rle_dec ?x ?y] => destruct (Rle_dec x y) end; lra.
Qed.

Lemma blend_NaN_r (i : number) : blend i NaN = NaN.
Proof. unfold blend. destruct i; reflexivity. Qed.

Lemma adjustedPenalty_real (d : R) (n : nat) :
  exists a, adjustedPenalty (Num d) n = Num a.
Proof.
  unfold adjustedPenalty, penalty, coldStartFactor, COLD_START_THRESHOLD, of_nat, JS.div.
  destruct (Req_dec_T 5 0); [lra|]. cbn. eexists. reflexivity.
Qed.

Lemma adjustedPenalty_NaN (n : nat) : adjustedPenalty NaN n = NaN.
Proof. reflexivity. Qed.

(** Every update adds exactly one to the interaction count of its key,
    whatever the divergence. *)
Lemma update_increments_count (now : Z) (tbl : Table) (actorId domain : string)
    (div : number) :
  prior_count (fst (updateIntegrity now tbl actorId domain div)) actorId domain
  = S (prior_count tbl actorId domain).
Proof.
  destruct (updateIntegrity_row now tbl actorId domain div) as (row & -> & _ & Hc & _).
  cbn [fst]. unfold prior_count at 1. rewrite lookup_insert_eq. exact Hc.
Qed.

(** The reads return the table they were given. *)
Lemma reads_leave_table (tbl : Table) (actorId domain : string) :
  fst (getIntegrity tbl actorId domain) = tbl /\
  fst (getIntegrityDetails tbl actorId domain) = tbl /\
  fst (getIntegrityTrend tbl actorId domain) = tbl.
Proof. repeat split. Qed.

(** On numbers the clamp works: for a real divergence and a prior record
    whose integrity is a real number (or no prior record), the stored and
    returned integrity lies in [0.05, 1], the interaction count is the prior
    one plus 1, and reading changes nothing. *)
Theorem integrity_update_bounds (now : Z) (tbl : Table) (actorId domain : string) (d : R) :
  (exists i, prior_integrity tbl actorId domain = Num i) ->
  exists row r,
    fst (updateIntegrity now tbl actorId domain (Num d)) !! key actorId domain = Some row /\
    snd (updateIntegrity now tbl actorId domain (Num d)) = Num r /\
    integrity row = Num r /\ 0.05 <= r <= 1 /\
    interactionCount row = S (prior_count tbl actorId domain) /\
    fst (getIntegrity tbl actorId domain) = tbl /\
    fst (getIntegrityDetails tbl actorId domain) = tbl.
Proof.
  intros [i Hi].
  destruct (updateIntegrity_row now tbl actorId domain (Num d))
    as (row & -> & Hrow & Hc & _).
  destruct (adjustedPenalty_real d (prior_count tbl actorId domain)) as [a Ha].
  rewrite Hi, Ha in Hrow. destruct (blend_real i a) as (r & Hr & Hb).
  exists row, r. cbn [fst snd]. rewrite lookup_insert_eq.
  repeat split; try congruence; lra.
Qed.

Lemma integrity_update_bounds_witness :
  (exists i, prior_integrity ∅ "user:A" "symbolic.state" = Num i) /\
  exists row r,
    fst (updateIntegrity 0 ∅ "user:A" "symbolic.state" (Num 0.9))
      !! key "user:A" "symbolic.state" = Some row /\
    snd (updateIntegrity 0 ∅ "user:A" "symbolic.state" (Num 0.9)) = Num r /\
    integrity row = Num r /\ 0.05 <= r <= 1 /\
    interactionCount row = S (prior_count ∅ "user:A" "symbolic.state") /\
    fst (getIntegrity ∅ "user:A" "symbolic.state") = ∅ /\
    fst (getIntegrityDetails ∅ "user:A" "symbolic.state") = ∅.
Proof.
  assert (H : exists i, prior_integrity ∅ "user:A" "symbolic.state" = Num i)
    by (exists 0.85; reflexivity).
  split; [exact H|].
  exact (integrity_update_bounds 0 ∅ "user:A" "symbolic.state" 0.9 H).
Defined.

(** A NaN divergence goes through the clamp: the stored integrity is NaN,
    which is not within [0.05, 1]. *)
Lemma updateIntegrity_NaN (now : Z) (tbl : Table) (actorId domain : string) :
  exists row,
    fst (updateIntegrity now tbl actorId domain NaN) !! key actorId domain = Some row /\
    integrity row = NaN /\
    snd (updateIntegrity now tbl actorId domain NaN) = NaN.
Proof.
  destruct (updateIntegrity_row now tbl actorId domain NaN) as (row & -> & Hrow & _).
  rewrite adjustedPenalty_NaN, blend_NaN_r in Hrow.
  exists row. cbn [fst snd]. rewrite lookup_insert_eq. auto.
Qed.

End IntegrityBounds.

(** ** The proof ledger *)

Section Ledger.
Import ProofLedger Vocabulary.

Variable sha256_hex : string -> string.
Variable Number_toString : number -> string.

#[local] Abbreviation hashProofNode := (hashProofNode sha256_hex Number_toString).
#[local] Abbreviation appendProof := (appendProof sha256_hex Number_toString).

Lemma or_zero_absent : or_zero None = or_zero (Some (Num 0)).
Proof. cbn. destruct (Req_dec_T 0 0); reflexivity. Qed.

(** The node that [appendProof] adds. *)
Lemma appendProof_node (chain : list ProofNode) (t : Transition) :
  exists node,
    appendProof chain t = chain ++ [node] /\
    idx node = length chain /\
    from node = t_from t /\ to node = t_to t /\ delta node = t_delta t /\
    prevHash node = t_prevHash t /\
    deltaLogic node = t_deltaLogic t /\
    deltaTemporal node = t_deltaTemporal t /\
    divergence node = t_divergence t /\
    hash node = hashProofNode (without_hash node).
Proof.
  unfold ProofLedger.appendProof. eexists. split; [reflexivity|].
  cbn. repeat split.
Qed.

(** C3. For every node that [appendProof] produces, recomputing the digest
    over the node's stored fields (idx, from, to, delta, prevHash,
    deltaLogic, deltaTemporal, divergence) gives the node's stored hash;
    and an absent optional field hashes as the same field set to 0. *)
Theorem hash_roundtrip_and_canonical_zero :
  forall (chain : list ProofNode) (t : Transition) (u : Unhashed),
    (exists node,
        appendProof chain t = chain ++ [node] /\
        hashProofNode (without_hash node) = hash node) /\
    hashProofNode (with_deltaLogic None u)
      = hashProofNode (with_deltaLogic (Some (Num 0)) u) /\
    hashProofNode (with_deltaTemporal None u)
      = hashProofNode (with_deltaTemporal (Some (Num 0)) u) /\
    hashProofNode (with_divergence None u)
      = hashProofNode (with_divergence (Some (Num 0)) u).
Proof.
  intros chain t u. split.
  - destruct (appendProof_node chain t) as (node & Happ & H).
    exists node. split; [exact Happ|]. symmetry. apply H.
  - unfold ProofLedger.hashProofNode, hash_data.
    cbn -[or_zero]. rewrite or_zero_absent. repeat split.
Qed.

Lemma chain_linked_nil : chain_linked [].
Proof. repeat split; intros; discriminate. Qed.

Lemma chain_linked_append (chain : list ProofNode) (t : Transition) :
  chain_linked chain -> t_prevHash t = tail_hash chain ->
  chain_linked (appendProof chain t).
Proof.
  intros (Hidx & Hgen & Hlink) Ht.
  destruct (appendProof_node chain t) as (node & -> & Hi & _ & _ & _ & Hp & _).
  rewrite Ht in Hp. unfold tail_hash in Hp.
  repeat split.
  - intros i n Hn. apply lookup_app_Some in Hn as [Hn | [Hge Hn]].
    + now apply Hidx.
    + apply list_lookup_singleton_Some in Hn as [Hz <-]. lia.
  - intros n Hn. apply lookup_app_Some in Hn as [Hn | [Hge Hn]].
    + now apply Hgen.
    + apply list_lookup_singleton_Some in Hn as [_ <-].
      assert (chain = []) as -> by (apply length_zero_iff_nil; lia).
      exact Hp.
  - intros i prev n Hprev Hn.
    apply lookup_app_Some in Hn as [Hn | [Hge Hn]].
    + apply (Hlink i); [|exact Hn].
      apply lookup_app_Some in Hprev as [Hprev | [Hge _]]; [exact Hprev|].
      apply lookup_lt_Some in Hn. lia.
    + apply list_lookup_singleton_Some in Hn as [Hz <-].
      assert (Hlen : length chain = S i) by lia.
      apply lookup_app_Some in Hprev as [Hprev | [Hge' _]]; [|lia].
      rewrite last_lookup, Hlen in Hp. cbn in Hp. rewrite Hprev in Hp. exact Hp.
Qed.

End Ledger.

(** ** The handlers *)

Section Handlers.
Import Fraud Integrity ProofLedger Routes Vocabulary.

Variable sha256_hex : string -> string.
Variable Number_toString : number -> string.

#[local] Abbreviation transition := (transition sha256_hex Number_toString).
#[local] Abbreviation serve := (Vocabulary.serve sha256_hex Number_toString).
#[local] Abbreviation accepted := (Vocabulary.accepted sha256_hex Number_toString).
#[local] Abbreviation appendProof := (appendProof sha256_hex Number_toString).

Lemma Verdict_eqb_eq (a b : Verdict) : Verdict_eqb a b = true <-> a = b.
Proof. destruct a, b; cbn; split; intros; congruence. Qed.

Lemma transition_invalid (now : nat -> Z) (g : Globals) (req : Request) :
  invalid_states (from req) (to req) = true ->
  transition now g req = (g, TransitionInvalid 400 (Object_keys Glyphs.EMBEDDINGS)).
Proof. intros H. unfold Routes.transition. fold_metrics req. rewrite H. reflexivity. Qed.

Lemma transition_rejected (now : nat -> Z) (g : Globals) (req : Request) :
  invalid_states (from req) (to req) = false ->
  m_verdict (metrics (from req) (to req)) = REJECT ->
  exists updates,
    transition now g req =
    ({| SKYLA_INTEGRITY := table_after now g req; SKYLA_CHAIN := SKYLA_CHAIN g |},
     TransitionRejected 400 false (delta_of (metrics (from req) (to req))) REJECT
       updates false).
Proof.
  intros Hv Hr. unfold Routes.transition, table_after. fold_metrics req. rewrite Hv.
  cbn [getIntegrity]. rewrite Hr. cbn [Verdict_eqb counterpart_share].
  rewrite (mul_comm (Num 0.3)).
  destruct (updateIntegrity (now 0%nat) _ _ _ _) as [tblA postA].
  destruct (updateIntegrity (now 1%nat) _ _ _ _) as [tblB postB].
  eexists. reflexivity.
Qed.

Lemma transition_accepted (now : nat -> Z) (g : Globals) (req : Request) :
  invalid_states (from req) (to req) = false ->
  m_verdict (metrics (from req) (to req)) <> REJECT ->
  exists node updates,
    appendProof (SKYLA_CHAIN g) (ledger_entry g req) = SKYLA_CHAIN g ++ [node] /\
    transition now g req =
    ({| SKYLA_INTEGRITY := table_after now g req;
        SKYLA_CHAIN := SKYLA_CHAIN g ++ [node] |},
     TransitionAccepted true (to req) (hash node) (idx node)
       (delta_of (metrics (from req) (to req)))
       (m_verdict (metrics (from req) (to req)))
       (consensusStrength (m_div (metrics (from req) (to req))))
       updates true (S (length (SKYLA_CHAIN g)))).
Proof.
  intros Hv Hr. unfold Routes.transition, table_after. fold_metrics req. rewrite Hv.
  cbn [getIntegrity].
  destruct (Verdict_eqb _ REJECT) eqn:He; [apply Verdict_eqb_eq in He; contradiction|].
  replace (counterpart_share _) with 0.5
    by (destruct (m_verdict (metrics (from req) (to req))); cbn; congruence).
  rewrite (mul_comm (Num 0.5)).
  destruct (updateIntegrity (now 0%nat) _ _ _ _) as [tblA postA].
  destruct (updateIntegrity (now 1%nat) _ _ _ _) as [tblB postB].
  destruct (appendProof_node sha256_hex Number_toString
              (SKYLA_CHAIN g) (ledger_entry g req)) as (node & Happ & _).
  exists node. eexists. split; [exact Happ|].
  change (match last (SKYLA_CHAIN g) with
          | Some tail => hash tail
          | None => "GENESIS"%string
          end) with (tail_hash (SKYLA_CHAIN g)).
  fold (ledger_entry g req). rewrite Happ.
  rewrite last_snoc, length_app. cbn. rewrite Nat.add_1_r. reflexivity.
Qed.

(** The configured state names pass the validation check. *)
Lemma configured_state_lookup (s : string) :
  In s Glyphs.getAllSymbolicStates -> exists xs, get Glyphs.EMBEDDINGS s = VArray xs.
Proof.
  cbn. intros H.
  repeat (destruct H as [<- | H]; [eexists; reflexivity|]). contradiction.
Qed.

Lemma configured_states_valid (from to : string) :
  In from Glyphs.getAllSymbolicStates -> In to Glyphs.getAllSymbolicStates ->
  invalid_states from to = false.
Proof.
  intros Hf Ht. unfold invalid_states.
  destruct (configured_state_lookup from Hf) as [xs ->].
  destruct (configured_state_lookup to Ht) as [ys ->]. reflexivity.
Qed.

(** C5. For every valid transition request the integrity tracker is
    updated for both actors whatever the verdict: actorA with the full
    divergence, then actorB with [min(0.3 * divergence, 1)] when the verdict
    is REJECT and [min(0.5 * divergence, 1)] otherwise.  The ledger is left
    as it was on REJECT and extended by one node otherwise, and the
    response reports [chainExtended] accordingly. *)
Theorem transition_updates_both_actors
    (now : nat -> Z) (g : Globals) (req : Request) :
  In (from req) Glyphs.getAllSymbolicStates ->
  In (to req) Glyphs.getAllSymbolicStates ->
  let m := metrics (from req) (to req) in
  let g' := fst (transition now g req) in
  let resp := snd (transition now g req) in
  let tblA := fst (updateIntegrity (now 0%nat) (SKYLA_INTEGRITY g)
                     (actorA_of req) (domain_of req) (m_div m)) in
  let tblB := fst (updateIntegrity (now 1%nat) tblA (actorB_of req) (domain_of req)
                     (Math_min (mul (Num (counterpart_share (m_verdict m))) (m_div m))
                               (Num 1))) in
  SKYLA_INTEGRITY g' = tblB /\
  counterpart_share REJECT = 0.3 /\
  (forall v, v <> REJECT -> counterpart_share v = 0.5) /\
  (m_verdict m = REJECT ->
     SKYLA_CHAIN g' = SKYLA_CHAIN g /\ chainExtended_of resp = Some false) /\
  (m_verdict m <> REJECT ->
     (exists node, SKYLA_CHAIN g' = SKYLA_CHAIN g ++ [node]) /\
     chainExtended_of resp = Some true).
Proof.
  intros Hf Ht m g' resp tblA tblB.
  pose proof (configured_states_valid _ _ Hf Ht) as Hv.
  assert (Hshare : forall v, v <> REJECT -> counterpart_share v = 0.5)
    by (intros [] Hne; cbn; congruence).
  destruct (Verdict_eqb (m_verdict m) REJECT) eqn:He.
  - apply Verdict_eqb_eq in He.
    destruct (transition_rejected now g req Hv He) as (upd & Htr).
    subst g' resp. rewrite Htr. cbn [fst snd SKYLA_INTEGRITY SKYLA_CHAIN].
    repeat split; try assumption; try reflexivity; contradiction.
  - assert (Hne : m_verdict m <> REJECT)
      by (intros Heq; apply Verdict_eqb_eq in Heq; congruence).
    destruct (transition_accepted now g req Hv Hne) as (node & upd & _ & Htr).
    subst g' resp. rewrite Htr. cbn [fst snd SKYLA_INTEGRITY SKYLA_CHAIN].
    repeat split; try assumption; try reflexivity; try contradiction.
    exists node. reflexivity.
Qed.

(** Every request takes one of the three exits of the handler. *)
Lemma transition_chain (now : nat -> Z) (g : Globals) (req : Request) :
  (SKYLA_CHAIN (fst (transition now g req)) = SKYLA_CHAIN g /\
   accepted g [(now, req)] = 0%nat) \/
  (SKYLA_CHAIN (fst (transition now g req))
     = appendProof (SKYLA_CHAIN g) (ledger_entry g req) /\
   accepted g [(now, req)] = 1%nat).
Proof.
  cbn [Vocabulary.accepted].
  destruct (invalid_states (from req) (to req)) eqn:Hv.
  - left. rewrite (transition_invalid now g req Hv). split; reflexivity.
  - destruct (Verdict_eqb (m_verdict (metrics (from req) (to req))) REJECT) eqn:He.
    + apply Verdict_eqb_eq in He.
      destruct (transition_rejected now g req Hv He) as (upd & ->).
      left. split; reflexivity.
    + assert (Hne : m_verdict (metrics (from req) (to req)) <> REJECT)
        by (intros Heq; apply Verdict_eqb_eq in Heq; congruence).
      destruct (transition_accepted now g req Hv Hne) as (node & upd & Happ & ->).
      right. rewrite Happ. split; reflexivity.
Qed.

Lemma serve_chain_linked (reqs : list ((nat -> Z) * Request)) (g : Globals) :
  chain_linked (SKYLA_CHAIN g) ->
  chain_linked (SKYLA_CHAIN (serve g reqs)) /\
  length (SKYLA_CHAIN (serve g reqs))
    = (length (SKYLA_CHAIN g) + accepted g reqs)%nat.
Proof.
  revert g. induction reqs as [|[now req] reqs IH]; intros g Hg.
  - cbn. split; [exact Hg | lia].
  - cbn [Vocabulary.serve Vocabulary.accepted].
    destruct (transition_chain now g req) as [[Hc Ha] | [Hc Ha]];
      cbn [Vocabulary.accepted] in Ha;
      destruct (transition now g req) as [g1 resp] eqn:Htr; cbn [fst] in *.
    + destruct (IH g1) as [IH1 IH2]; [rewrite Hc; exact Hg|].
      split; [exact IH1|]. rewrite IH2, Hc. lia.
    + destruct (IH g1) as [IH1 IH2].
      { rewrite Hc. apply chain_linked_append; [exact Hg | reflexivity]. }
      split; [exact IH1|]. rewrite IH2, Hc.
      destruct (appendProof_node sha256_hex Number_toString
                  (SKYLA_CHAIN g) (ledger_entry g req)) as (node & -> & _).
      rewrite length_app. cbn. lia.
Qed.

(** C2. Starting from the empty chain, after any run of transition
    requests of which N are accepted, the chain has N nodes carrying the
    indices 0..N-1 in order, node 0 has [prevHash = "GENESIS"], and every
    later node's [prevHash] is the hash of the node before it.  [appendProof]
    returns the chain it was given followed by one new node. *)
Theorem ledger_chain_invariant :
  forall (reqs : list ((nat -> Z) * Request)),
    let chain := SKYLA_CHAIN (serve startup reqs) in
    length chain = accepted startup reqs /\
    (forall i node, chain !! i = Some node -> idx node = i) /\
    (forall node, chain !! 0%nat = Some node -> prevHash node = "GENESIS"%string) /\
    (forall i prev node,
        chain !! i = Some prev -> chain !! S i = Some node ->
        prevHash node = hash prev) /\
    (forall (c : list ProofNode) (t : Transition),
        exists node, appendProof c t = c ++ [node] /\ idx node = length c).
Proof.
  intros reqs chain. subst chain.
  destruct (serve_chain_linked reqs startup chain_linked_nil)
    as [(Hidx & Hgen & Hlink) Hlen].
  repeat split; try assumption.
  intros c t. destruct (appendProof_node sha256_hex Number_toString c t)
    as (node & Happ & Hi & _).
  exists node. split; assumption.
Qed.

End Handlers.

(** ** The validation check *)

Section ValidationCheck.
Import Fraud Integrity ProofLedger Routes Vocabulary.

Variable sha256_hex : string -> string.
Variable Number_toString : number -> string.

#[local] Abbreviation transition := (transition sha256_hex Number_toString).

Lemma assoc_None {A : Type} (k : string) (l : list (string * A)) :
  ~ In k (Object_keys l) -> assoc k l = None.
Proof.
  induction l as [|[k' v] l IH]; cbn; [reflexivity|]. intros Hn.
  destruct (String.eqb_spec k' k) as [->|Hne]; [tauto|]. apply IH. tauto.
Qed.

(** A name that is neither configured nor inherited reads as [undefined]. *)
Lemma get_unknown (s : string) :
  ~ In s Glyphs.getAllSymbolicStates -> ~ In s (Object_keys Object_prototype) ->
  get Glyphs.EMBEDDINGS s = VUndefined.
Proof.
  intros H1 H2. unfold get. now rewrite (assoc_None s _ H1), (assoc_None s _ H2).
Qed.

Lemma detect_globals (g : Globals) (req : Request) : fst (detect g req) = g.
Proof.
  unfold detect. fold_metrics req.
  destruct (invalid_states _ _); [reflexivity|].
  cbn. destruct g; reflexivity.
Qed.

Lemma detect_ok (g : Globals) (req : Request) :
  invalid_states (from req) (to req) = false ->
  exists actors,
    detect g req
    = (g, DetectOk (m_dist (metrics (from req) (to req)))
            (delta_of (metrics (from req) (to req)))
            (m_verdict (metrics (from req) (to req)))
            (consensusStrength (m_div (metrics (from req) (to req)))) actors).
Proof.
  intros Hv. unfold detect. fold_metrics req. rewrite Hv. cbn.
  destruct g. eexists. reflexivity.
Qed.

(** A request naming a state that is neither configured nor an inherited
    property name is refused by both handlers with status 400 and the list
    of the configured names, and the globals are left as they were. *)
Theorem unknown_state_refused (now : nat -> Z) (g : Globals) (req : Request) :
  (~ In (from req) Glyphs.getAllSymbolicStates /\
   ~ In (from req) (Object_keys Object_prototype)) \/
  (~ In (to req) Glyphs.getAllSymbolicStates /\
   ~ In (to req) (Object_keys Object_prototype)) ->
  transition now g req = (g, TransitionInvalid 400 Glyphs.getAllSymbolicStates) /\
  detect g req = (g, DetectInvalid 400 Glyphs.getAllSymbolicStates).
Proof.
  intros H.
  assert (Hv : invalid_states (from req) (to req) = true).
  { unfold invalid_states. destruct H as [[H1 H2] | [H1 H2]];
      rewrite (get_unknown _ H1 H2); cbn; [reflexivity | apply orb_true_r]. }
  split; [now apply transition_invalid|].
  unfold detect. fold_metrics req. now rewrite Hv.
Qed.


(** *** Inherited property names *)

Lemma metrics_toString_chaos :
  metrics "toString" "chaos" =
  {| m_dist := Num 0; m_isForbidden := false; m_deltaLogic := Num 0;
     m_deltaTemporal := Num 0; m_div := Num 0;
     m_verdict := VALID |}.
Proof.
  unfold metrics.
  assert (Hd : vectorDistance (as_numbers (get Glyphs.EMBEDDINGS "toString"))
                              (as_numbers (get Glyphs.EMBEDDINGS "chaos")) = Num 0).
  { unfold vectorDistance. cbn -[Math_sqrt]. apply Math_sqrt_square; lra. }
  rewrite Hd. change (forbiddenTransition "toString" "chaos") with false.
  cbn [logicResidualFromRule]. rewrite temporalResidual_real.
  replace (Rmin 1 (0 / 5)) with 0 by (unfold Rmin; destruct (Rle_dec 1 (0 / 5)); lra).
  rewrite divergence_default_real.
  replace (0.6 * (0 * 0) + 0.4 * (0 * 0)) with 0 by lra. rewrite sqrt_0.
  f_equal. unfold verdictFromDivergence, ge, gt. decide_cmp. reflexivity.
Qed.

Lemma metrics_constructor_chaos :
  metrics "constructor" "chaos" =
  {| m_dist := NaN; m_isForbidden := false; m_deltaLogic := Num 0;
     m_deltaTemporal := NaN; m_div := NaN;
     m_verdict := VALID |}.
Proof.
  unfold metrics. cbn. unfold verdictFromDivergence, ge, gt. decide_cmp. reflexivity.
Qed.

(** C9 fails on the code: ["toString"] is not a configured state name, yet
    [EMBEDDINGS["toString"]] is the function inherited from
    [Object.prototype], which is truthy.  The check lets the request through:
    [detect] computes residuals, and [transition] appends a node to the
    ledger and updates the integrity table. *)
Theorem inherited_name_passes_validation (now : nat -> Z) :
  ~ In "toString"%string Glyphs.getAllSymbolicStates /\
  (exists delta consensus actors,
      detect startup (request "toString" "chaos")
      = (startup, DetectOk (Num 0) delta VALID consensus actors)) /\
  (exists node tbl delta consensus updates,
      transition now startup (request "toString" "chaos")
      = ({| SKYLA_INTEGRITY := tbl; SKYLA_CHAIN := [node] |},
         TransitionAccepted true "chaos" (hash node) 0 delta VALID consensus
           updates true 1) /\
      ProofLedger.from node = "toString"%string /\
      is_Some (tbl !! key "user:A" "symbolic.state")).
Proof.
  split; [|split].
  - cbn. intuition discriminate.
  - destruct (detect_ok startup (request "toString" "chaos")) as (actors & ->);
      [reflexivity|].
    cbn [from to request]. rewrite metrics_toString_chaos. repeat eexists.
  - assert (Hv : invalid_states (from (request "toString" "chaos"))
                                (to (request "toString" "chaos")) = false)
      by reflexivity.
    assert (Hne : m_verdict (metrics (from (request "toString" "chaos"))
                                   (to (request "toString" "chaos"))) <> REJECT)
      by (cbn [from to request]; rewrite metrics_toString_chaos; discriminate).
    destruct (transition_accepted sha256_hex Number_toString now startup _ Hv Hne)
      as (node & upd & Happ & Htr).
    destruct (appendProof_node sha256_hex Number_toString
                (SKYLA_CHAIN startup) (ledger_entry startup (request "toString" "chaos")))
      as (node' & Happ' & Hi & Hfrom & _).
    rewrite Happ' in Happ. apply app_inj_tail in Happ as [_ <-].
    exists node'. eexists. eexists. eexists. exists upd.
    split; [|split].
    + rewrite Htr. cbn [from to request]. rewrite metrics_toString_chaos.
      cbn in Hi. rewrite Hi. reflexivity.
    + exact Hfrom.
    + unfold table_after.
      destruct (updateIntegrity_row (now 0%nat) (SKYLA_INTEGRITY startup)
                  (actorA_of (request "toString" "chaos"))
                  (domain_of (request "toString" "chaos"))
                  (m_div (metrics (from (request "toString" "chaos"))
                                (to (request "toString" "chaos")))))
        as (rowA & -> & _).
      cbn [fst].
      match goal with |- context [updateIntegrity ?n ?t ?a ?d ?x] =>
        destruct (updateIntegrity_row n t a d x) as (rowB & -> & _) end.
      cbn [fst].
      rewrite lookup_insert_ne by (cbn; discriminate).
      rewrite lookup_insert_eq. eauto.
Qed.

End ValidationCheck.

(** ** NaN in the integrity table *)

Section NaNIntegrity.
Import Fraud Integrity ProofLedger Routes Vocabulary.

Variable sha256_hex : string -> string.
Variable Number_toString : number -> string.

#[local] Abbreviation transition := (transition sha256_hex Number_toString).

(** C4 fails on the code: a NaN divergence is not stopped by
    [Math.max(0.05, Math.min(1, newI))], so the stored integrity is NaN and
    not within [0.05, 1].  The handler can be made to pass one: with
    [from = "constructor"] the validation check is passed (see C9), the
    distance and the divergence are NaN, the verdict is VALID, and after the
    request the integrity of the primary actor reads NaN. *)
Theorem integrity_bound_broken_by_NaN (now : nat -> Z) :
  (forall (t : Z) (tbl : Table) (actorId domain : string),
      exists row,
        fst (updateIntegrity t tbl actorId domain NaN) !! key actorId domain = Some row /\
        integrity row = NaN /\
        ge (integrity row) (Num 0.05) = false /\
        le (integrity row) (Num 1) = false) /\
  m_div (metrics "constructor" "chaos") = NaN /\
  snd (getIntegrity
         (SKYLA_INTEGRITY (fst (transition now startup (request "constructor" "chaos"))))
         "user:A" "symbolic.state") = NaN.
Proof.
  split; [|split].
  - intros t tbl a d. destruct (updateIntegrity_NaN t tbl a d) as (row & Hl & Hi & _).
    exists row. rewrite Hi. repeat split; assumption.
  - rewrite metrics_constructor_chaos. reflexivity.
  - assert (Hv : invalid_states (from (request "constructor" "chaos"))
                                (to (request "constructor" "chaos")) = false)
      by reflexivity.
    assert (Hne : m_verdict (metrics (from (request "constructor" "chaos"))
                                   (to (request "constructor" "chaos"))) <> REJECT)
      by (cbn [from to request]; rewrite metrics_constructor_chaos; discriminate).
    destruct (transition_accepted sha256_hex Number_toString now startup _ Hv Hne)
      as (node & upd & _ & ->).
    cbn [fst SKYLA_INTEGRITY]. unfold table_after.
    cbn [from to request]. rewrite metrics_constructor_chaos. cbn [m_div m_verdict].
    destruct (updateIntegrity_NaN (now 0%nat) (SKYLA_INTEGRITY startup)
                (actorA_of (request "constructor" "chaos"))
                (domain_of (request "constructor" "chaos")))
      as (rowA & HlA & HiA & _).
    match goal with |- context [updateIntegrity (now 1%nat) ?t ?a ?d ?x] =>
      destruct (updateIntegrity_row (now 1%nat) t a d x) as (rowB & -> & _) end.
    cbn [fst]. unfold getIntegrity. cbn [snd].
    rewrite lookup_insert_ne by (cbn; discriminate).
    change (key "user:A" "symbolic.state")
      with (key (actorA_of (request "constructor" "chaos"))
                (domain_of (request "constructor" "chaos"))).
    rewrite HlA. exact HiA.
Qed.

End NaNIntegrity.

(** ** Key collisions *)

Section KeyCollision.
Import Integrity Vocabulary.

(** C10. The actor ["a::b"] in domain ["c"] and the actor ["a"] in domain
    ["b::c"] are distinct (actorId, domain) pairs with the same composite
    key, so they address one record: an update under the first pair is what
    a read under the second returns. *)
Theorem key_collision :
  ("a::b", "c")%string <> ("a", "b::c")%string /\
  key "a::b" "c" = key "a" "b::c" /\
  (forall (now : Z) (tbl : Table) (div : number),
      snd (getIntegrity (fst (updateIntegrity now tbl "a::b" "c" div)) "a" "b::c")
      = snd (updateIntegrity now tbl "a::b" "c" div)) /\
  snd (getIntegrity ∅ "a" "b::c") = Num 0.85 /\
  snd (getIntegrity (fst (updateIntegrity 0 ∅ "a::b" "c" (Num 1))) "a" "b::c")
  = Num 0.82.
Proof.
  split; [discriminate|]. split; [reflexivity|]. split; [|split].
  - intros now tbl dv.
    destruct (updateIntegrity_row now tbl "a::b" "c" dv) as (row & -> & _).
    cbn [fst snd]. unfold getIntegrity. cbn [snd].
    change (key "a" "b::c") with (key "a::b" "c").
    now rewrite lookup_insert_eq.
  - reflexivity.
  - destruct (updateIntegrity_row 0 ∅ "a::b" "c" (Num 1)) as (row & -> & Hi & _).
    cbn [fst]. unfold getIntegrity. cbn [snd].
    change (key "a" "b::c") with (key "a::b" "c").
    rewrite lookup_insert_eq, Hi.
    change (prior_count ∅ "a::b" "c") with 0%nat.
    change (prior_integrity ∅ "a::b" "c") with (Num 0.85).
    unfold adjustedPenalty. rewrite coldStartFactor_zero.
    unfold blend, penalty, ALPHA. cbn -[Rmin Rmax].
    f_equal. eval_minmax. lra.
Qed.

End KeyCollision.

(** ** Closed instances *)

Section Instances.
Import Fraud Integrity ProofLedger Routes Vocabulary.

Lemma transition_updates_both_actors_witness :
  (In (from (request "chaos" "conflict")) Glyphs.getAllSymbolicStates /\
   In (to (request "chaos" "conflict")) Glyphs.getAllSymbolicStates) /\
  let now := example_clock in
  let g := startup in
  let req := request "chaos" "conflict" in
  let m := metrics (from req) (to req) in
  let g' := fst (transition example_digest example_toString now g req) in
  let resp := snd (transition example_digest example_toString now g req) in
  let tblA := fst (updateIntegrity (now 0%nat) (SKYLA_INTEGRITY g)
                     (actorA_of req) (domain_of req) (m_div m)) in
  let tblB := fst (updateIntegrity (now 1%nat) tblA (actorB_of req) (domain_of req)
                     (Math_min (mul (Num (counterpart_share (m_verdict m))) (m_div m))
                               (Num 1))) in
  SKYLA_INTEGRITY g' = tblB /\
  counterpart_share REJECT = 0.3 /\
  (forall v, v <> REJECT -> counterpart_share v = 0.5) /\
  (m_verdict m = REJECT ->
     SKYLA_CHAIN g' = SKYLA_CHAIN g /\ chainExtended_of resp = Some false) /\
  (m_verdict m <> REJECT ->
     (exists node, SKYLA_CHAIN g' = SKYLA_CHAIN g ++ [node]) /\
     chainExtended_of resp = Some true).
Proof.
  split; [split; cbn; auto 10|].
  apply (transition_updates_both_actors example_digest example_toString
           example_clock startup (request "chaos" "conflict")); cbn; auto 10.
Defined.

Lemma unknown_state_refused_witness :
  ((~ In (from (request "limbo" "peace")) Glyphs.getAllSymbolicStates /\
    ~ In (from (request "limbo" "peace")) (Object_keys Object_prototype)) \/
   (~ In (to (request "limbo" "peace")) Glyphs.getAllSymbolicStates /\
    ~ In (to (request "limbo" "peace")) (Object_keys Object_prototype))) /\
  transition example_digest example_toString example_clock startup
    (request "limbo" "peace")
  = (startup, TransitionInvalid 400 Glyphs.getAllSymbolicStates) /\
  detect startup (request "limbo" "peace")
  = (startup, DetectInvalid 400 Glyphs.getAllSymbolicStates).
Proof.
  assert (H : (~ In (from (request "limbo" "peace")) Glyphs.getAllSymbolicStates /\
               ~ In (from (request "limbo" "peace")) (Object_keys Object_prototype)) \/
              (~ In (to (request "limbo" "peace")) Glyphs.getAllSymbolicStates /\
               ~ In (to (request "limbo" "peace")) (Object_keys Object_prototype))).
  { left. split; cbn; intuition discriminate. }
  split; [exact H|].
  exact (unknown_state_refused example_digest example_toString example_clock
           startup (request "limbo" "peace") H).
Defined.


End Instances.

(** ** Further properties of the engine and the tracker *)

Section Scenarios.
Import Fraud Integrity Routes Vocabulary.

(** A forbidden pair has logic residual 1 and is rejected, whatever the
    temporal residual and the divergence are. *)
Theorem forbidden_pair_rejected (from to : string) :
  forbiddenTransition from to = true ->
  m_deltaLogic (metrics from to) = Num 1 /\
  m_verdict (metrics from to) = REJECT /\
  (forall t d : number, verdictFromDivergence (Num 1) t d = REJECT).
Proof.
  intros Hf.
  assert (Hr : forall t d : number, verdictFromDivergence (Num 1) t d = REJECT).
  { intros t d. unfold verdictFromDivergence, ge. decide_cmp. reflexivity. }
  unfold metrics. cbn [m_deltaLogic m_verdict]. rewrite Hf. cbn [logicResidualFromRule].
  repeat split; [apply Hr | exact Hr].
Qed.

Lemma forbidden_pair_rejected_witness :
  forbiddenTransition "chaos" "peace" = true /\
  m_deltaLogic (metrics "chaos" "peace") = Num 1 /\
  m_verdict (metrics "chaos" "peace") = REJECT /\
  (forall t d : number, verdictFromDivergence (Num 1) t d = REJECT).
Proof.
  split; [reflexivity|]. apply (forbidden_pair_rejected "chaos" "peace"). reflexivity.
Defined.

Lemma sum_squares_self (xs : list R) (s : R) :
  sum_squares (map Num xs) (map Num xs) (Num s) = Num s.
Proof.
  revert s. induction xs as [|x xs IH]; intros s; [reflexivity|].
  cbn. replace (s + (x - x) * (x - x)) with s by lra. apply IH.
Qed.

(** For a configured state, the step from the state to itself has raw
    distance 0 and temporal residual 0. *)
Theorem same_state_zero_distance (s : string) :
  In s Glyphs.getAllSymbolicStates ->
  m_dist (metrics s s) = Num 0 /\ m_deltaTemporal (metrics s s) = Num 0.
Proof.
  intros Hs. destruct (configured_state_lookup s Hs) as [xs Hxs].
  assert (Hd : vectorDistance (as_numbers (get Glyphs.EMBEDDINGS s))
                              (as_numbers (get Glyphs.EMBEDDINGS s)) = Num 0).
  { rewrite Hxs. unfold vectorDistance. cbn [as_numbers].
    rewrite sum_squares_self. apply Math_sqrt_square; lra. }
  unfold metrics. cbn [m_dist m_deltaTemporal]. rewrite Hd. split; [reflexivity|].
  rewrite temporalResidual_real. f_equal. eval_minmax. lra.
Qed.

Lemma same_state_zero_distance_witness :
  In "reflect"%string Glyphs.getAllSymbolicStates /\
  m_dist (metrics "reflect" "reflect") = Num 0 /\
  m_deltaTemporal (metrics "reflect" "reflect") = Num 0.
Proof.
  assert (H : In "reflect"%string Glyphs.getAllSymbolicStates) by (cbn; auto 10).
  split; [exact H|]. exact (same_state_zero_distance "reflect" H).
Defined.

(** After [resetIntegrity] a read returns the prior 0.85, whatever the
    record held before. *)
Theorem reset_then_read_prior :
  forall (tbl : Table) (actorId domain : string),
    resetIntegrity tbl actorId domain !! key actorId domain = None /\
    snd (getIntegrity (resetIntegrity tbl actorId domain) actorId domain) = Num 0.85.
Proof.
  intros tbl a d. unfold resetIntegrity, getIntegrity. cbn [snd].
  rewrite lookup_delete_eq. split; reflexivity.
Qed.

(** One update on real operands. *)
Lemma update_real (now : Z) (tbl : Table) (actorId domain : string) (i d : R) (n : nat) :
  prior_integrity tbl actorId domain = Num i ->
  prior_count tbl actorId domain = n ->
  prior_integrity (fst (updateIntegrity now tbl actorId domain (Num d))) actorId domain
  = Num (Rmax 0.05
           (Rmin 1 ((1 - 0.2) * i
                    + 0.2 * (1 - Rmin 1 d * (0.3 + 0.7 * Rmin 1 (INR n / 5)))))) /\
  prior_count (fst (updateIntegrity now tbl actorId domain (Num d))) actorId domain = S n.
Proof.
  intros Hi Hn.
  destruct (updateIntegrity_row now tbl actorId domain (Num d))
    as (row & -> & Hrow & Hc & _).
  cbn [fst]. unfold prior_integrity at 1, prior_count at 1.
  rewrite lookup_insert_eq, Hrow, Hc, Hi, Hn. split; [|reflexivity].
  unfold blend, adjustedPenalty, penalty, coldStartFactor, COLD_START_THRESHOLD,
    ALPHA, of_nat, JS.div.
  destruct (Req_dec_T 5 0); [lra | reflexivity].
Qed.

Lemma update_times_S (k : nat) (t : Z) (tbl : Table) (actorId domain : string)
    (x : number) :
  update_times (S k) t tbl actorId domain x
  = fst (updateIntegrity t (update_times k t tbl actorId domain x) actorId domain x).
Proof. reflexivity. Qed.

(** From the integrity and count after [k] updates with divergence 0.9 to
    those after [k + 1]. *)
Ltac step t H :=
  let Hi := fresh in let Hc := fresh in
  destruct (update_real t _ _ _ _ 0.9 _ (proj1 H) (proj2 H)) as [Hi Hc];
  split; [rewrite update_times_S, Hi; f_equal; cbn [INR]; eval_minmax; lra
         | exact Hc].

(** Ten updates in a row with divergence 0.9 on a key that has no record
    yet: every call stores an integrity strictly below the one before it,
    and all of them stay above the floor 0.05. *)
Theorem repeated_updates_decrease (t : Z) (tbl : Table) (actorId domain : string) :
  tbl !! key actorId domain = None ->
  forall k : nat, (k < 10)%nat ->
    exists x y : R,
      prior_integrity (update_times k t tbl actorId domain (Num 0.9)) actorId domain
        = Num x /\
      prior_integrity (update_times (S k) t tbl actorId domain (Num 0.9)) actorId domain
        = Num y /\
      0.05 < y < x.
Proof.
  intros Hnone.
  set (St := fun (k : nat) (v : R) =>
    prior_integrity (update_times k t tbl actorId domain (Num 0.9)) actorId domain
      = Num v /\
    prior_count (update_times k t tbl actorId domain (Num 0.9)) actorId domain = k).
  assert (H0 : St 0%nat 0.85).
  { unfold St, prior_integrity, prior_count. cbn [update_times].
    rewrite Hnone. split; reflexivity. }
  assert (H1 : St 1%nat 0.826) by (unfold St; step t H0).
  assert (H2 : St 2%nat 0.7816) by (unfold St; step t H1).
  assert (H3 : St 3%nat 0.72088) by (unfold St; step t H2).
  assert (H4 : St 4%nat 0.647104) by (unfold St; step t H3).
  assert (H5 : St 5%nat 0.5628832) by (unfold St; step t H4).
  assert (H6 : St 6%nat 0.47030656) by (unfold St; step t H5).
  assert (H7 : St 7%nat 0.396245248) by (unfold St; step t H6).
  assert (H8 : St 8%nat 0.3369961984) by (unfold St; step t H7).
  assert (H9 : St 9%nat 0.28959695872) by (unfold St; step t H8).
  assert (H10 : St 10%nat 0.251677566976) by (unfold St; step t H9).
  intros k Hk.
  destruct k as [|[|[|[|[|[|[|[|[|[|k]]]]]]]]]]; [| | | | | | | | | |lia].
  - exists 0.85, 0.826. split; [apply H0|]. split; [apply H1|]. lra.
  - exists 0.826, 0.7816. split; [apply H1|]. split; [apply H2|]. lra.
  - exists 0.7816, 0.72088. split; [apply H2|]. split; [apply H3|]. lra.
  - exists 0.72088, 0.647104. split; [apply H3|]. split; [apply H4|]. lra.
  - exists 0.647104, 0.5628832. split; [apply H4|]. split; [apply H5|]. lra.
  - exists 0.5628832, 0.47030656. split; [apply H5|]. split; [apply H6|]. lra.
  - exists 0.47030656, 0.396245248. split; [apply H6|]. split; [apply H7|]. lra.
  - exists 0.396245248, 0.3369961984. split; [apply H7|]. split; [apply H8|]. lra.
  - exists 0.3369961984, 0.28959695872. split; [apply H8|]. split; [apply H9|]. lra.
  - exists 0.28959695872, 0.251677566976. split; [apply H9|]. split; [apply H10|]. lra.
Qed.

Lemma repeated_updates_decrease_witness :
  (∅ : Table) !! key "user:A" "symbolic.state" = None /\
  (3 < 10)%nat /\
  exists x y : R,
    prior_integrity (update_times 3 0 ∅ "user:A" "symbolic.state" (Num 0.9))
      "user:A" "symbolic.state" = Num x /\
    prior_integrity (update_times 4 0 ∅ "user:A" "symbolic.state" (Num 0.9))
      "user:A" "symbolic.state" = Num y /\
    0.05 < y < x.
Proof.
  split; [reflexivity|]. split; [lia|].
  apply (repeated_updates_decrease 0 ∅ "user:A" "symbolic.state"); [reflexivity | lia].
Defined.

End Scenarios.

(** ** The residual engine on real vectors *)

Section EngineFacts.
Import Fraud Vocabulary.

Lemma sq_dist_cons (x y : R) (xs ys : list R) :
  sq_dist (x :: xs) (y :: ys) = (x - y) * (x - y) + sq_dist xs ys.
Proof. reflexivity. Qed.

Lemma sum_squares_real (xs ys : list R) (s : R) :
  sum_squares (map Num xs) (map Num ys) (Num s) = Num (s + sq_dist xs ys).
Proof.
  revert ys s. induction xs as [|x xs IH]; intros [|y ys] s;
    try (cbn; f_equal; lra).
  cbn [map sum_squares]. cbn [pow2 sub add mul lift2]. rewrite IH.
  rewrite sq_dist_cons. f_equal. lra.
Qed.

Lemma sq_dist_nonneg (xs ys : list R) : 0 <= sq_dist xs ys.
Proof.
  revert ys. induction xs as [|x xs IH]; intros [|y ys];
    try (cbn; lra).
  rewrite sq_dist_cons. specialize (IH ys).
  pose proof (Rle_0_sqr (x - y)) as Hsq. unfold Rsqr in Hsq. lra.
Qed.




Lemma vectorDistance_real (xs ys : list R) :
  vectorDistance (map Num xs) (map Num ys) = Num (sqrt (sq_dist xs ys)).
Proof.
  unfold vectorDistance. rewrite sum_squares_real.
  rewrite Rplus_0_l. apply Math_sqrt_nonneg, sq_dist_nonneg.
Qed.


(** For a positive cap and a non-negative distance the temporal residual
    lies in [0, 1], does not decrease when the distance grows, is the
    distance over the cap up to the cap and exactly 1 from the cap on. *)
Theorem temporalResidual_clamp (c d d' : R) :
  0 < c -> 0 <= d <= d' ->
  exists t t' : R,
    temporalResidualFromDistance (Num d) (Num c) = Num t /\
    temporalResidualFromDistance (Num d') (Num c) = Num t' /\
    0 <= t <= t' /\ t' <= 1 /\
    (d <= c -> t = d / c) /\ (c <= d -> t = 1).
Proof.
  intros Hc Hd.
  assert (Hq : d / c * c = d) by (field; lra).
  assert (Hq' : d' / c * c = d') by (field; lra).
  exists (Rmin 1 (d / c)), (Rmin 1 (d' / c)).
  unfold temporalResidualFromDistance, JS.div.
  destruct (Req_dec_T c 0) as [->|_]; [lra|]. cbn.
  split; [reflexivity|]. split; [reflexivity|].
  generalize dependent (d / c). generalize dependent (d' / c).
  intros q' Hq' q Hq. unfold Rmin.
  destruct (Rle_dec 1 q), (Rle_dec 1 q'); repeat split; intros; nra.
Qed.

Lemma temporalResidual_clamp_witness :
  (0 < 5 /\ 0 <= 2 <= 7) /\
  exists t t' : R,
    temporalResidualFromDistance (Num 2) (Num 5) = Num t /\
    temporalResidualFromDistance (Num 7) (Num 5) = Num t' /\
    0 <= t <= t' /\ t' <= 1 /\
    (2 <= 5 -> t = 2 / 5) /\ (5 <= 2 -> t = 1).
Proof.
  split; [lra|]. apply (temporalResidual_clamp 5 2 7); lra.
Defined.

End EngineFacts.

(** ** What the temporal baseline can and cannot do *)

Section TemporalBaseline.
Import Fraud Routes Vocabulary.

Lemma sqrt_sq_le (x b : R) : 0 <= x -> sqrt x <= b -> x <= b * b.
Proof.
  intros Hx Hb. pose proof (sqrt_pos x) as Hp.
  rewrite <- (sqrt_sqrt x Hx). nra.
Qed.

(** The pipeline of the handlers on a real distance, with no logic
    violation. *)
Lemma pipeline_no_violation (d : R) :
  0 <= d ->
  exists t r : R,
    temporalResidualFromDistance (Num d) CAP_default = Num t /\
    t = Rmin 1 (d / 5) /\ 0 <= t <= 1 /\
    Fraud.divergence (Num 0) (Num t) context_default weights_default = Num r /\
    0 <= r /\ r * r = 0.4 * (t * t) /\
    (verdictFromDivergence (Num 0) (Num t) (Num r) = VALID \/
     verdictFromDivergence (Num 0) (Num t) (Num r) = CAUTION) /\
    (d <= 3.5 -> verdictFromDivergence (Num 0) (Num t) (Num r) = VALID).
Proof.
  intros Hd. exists (Rmin 1 (d / 5)), (sqrt (0.4 * (Rmin 1 (d / 5) * Rmin 1 (d / 5)))).
  rewrite temporalResidual_real, divergence_default_real.
  assert (Ht : 0 <= Rmin 1 (d / 5) <= 1).
  { split; [apply Rmin_glb; lra | apply Rmin_l]. }
  set (t := Rmin 1 (d / 5)) in *.
  replace (0.6 * (0 * 0) + 0.4 * (t * t)) with (0.4 * (t * t)) by lra.
  assert (Hx : 0 <= 0.4 * (t * t)) by nra.
  assert (Hr65 : sqrt (0.4 * (t * t)) <= 0.65) by (apply sqrt_le_bound; nra).
  repeat split; try lra; try apply sqrt_pos.
  - apply sqrt_sqrt. exact Hx.
  - unfold verdictFromDivergence, ge, gt.
    destruct (Rge_dec 0 1); [lra|].
    destruct (Rgt_dec _ 0.85); [lra|].
    destruct (Rgt_dec _ 0.65); [lra|].
    destruct (Rgt_dec _ 0.45); [right | left]; reflexivity.
  - intros H35.
    assert (Ht7 : t <= 0.7).
    { subst t. apply Rle_trans with (d / 5); [apply Rmin_r | lra]. }
    assert (Hr45 : sqrt (0.4 * (t * t)) <= 0.45) by (apply sqrt_le_bound; nra).
    unfold verdictFromDivergence, ge, gt. decide_cmp. reflexivity.
Qed.

(** With the default weights and no context, a transition that breaks no
    logic rule is never REJECT and never SUSPICIOUS, however far apart the
    two vectors are: the divergence is at most sqrt(0.4), below the 0.65
    threshold.  Up to a raw distance of 3.5 the verdict is VALID. *)
Theorem temporal_baseline_never_rejects :
  forall xs ys : list R,
    let dist := vectorDistance (map Num xs) (map Num ys) in
    let t := temporalResidualFromDistance dist CAP_default in
    let dv := Fraud.divergence (Num 0) t context_default weights_default in
    let v := verdictFromDivergence (Num 0) t dv in
    (exists r : R, dv = Num r /\ 0 <= r /\ r * r <= 0.4) /\
    (v = VALID \/ v = CAUTION) /\
    (forall d : R, dist = Num d -> d <= 3.5 -> v = VALID).
Proof.
  intros xs ys. cbv zeta. rewrite vectorDistance_real.
  destruct (pipeline_no_violation (sqrt (sq_dist xs ys)) (sqrt_pos _))
    as (t & r & -> & _ & Ht & -> & Hr & Hrr & Hv & Hvalid).
  split; [|split].
  - exists r. repeat split; [exact Hr | nra].
  - exact Hv.
  - intros d Hd Hle. injection Hd as <-. apply Hvalid. exact Hle.
Qed.

(** The vectors of the configured states have four coordinates in [0, 1]. *)
Lemma configured_vector (s : string) :
  In s Glyphs.getAllSymbolicStates ->
  exists a b c e : R,
    get Glyphs.EMBEDDINGS s = VArray [a; b; c; e] /\
    0 <= a <= 1 /\ 0 <= b <= 1 /\ 0 <= c <= 1 /\ 0 <= e <= 1.
Proof.
  cbn. intros H.
  repeat (destruct H as [<- | H];
          [do 4 eexists; split; [reflexivity | repeat split; lra]|]).
  contradiction.
Qed.

(** The metrics of the handlers on a pair of configured states. *)
Lemma configured_metrics (from to : string) :
  In from Glyphs.getAllSymbolicStates ->
  In to Glyphs.getAllSymbolicStates ->
  exists d dv : R,
    m_dist (metrics from to) = Num d /\ 0 <= d <= 2 /\
    m_deltaTemporal (metrics from to) = Num (d / 5) /\
    m_div (metrics from to) = Num dv /\ 0 <= dv <= 1 /\
    m_deltaLogic (metrics from to)
      = (if forbiddenTransition from to then Num 1 else Num 0) /\
    m_verdict (metrics from to)
      = (if forbiddenTransition from to then REJECT else VALID).
Proof.
  intros Hf Ht.
  destruct (configured_vector from Hf) as (a & b & c & e & Ha & Ha1 & Ha2 & Ha3 & Ha4).
  destruct (configured_vector to Ht) as (a' & b' & c' & e' & Hb & Hb1 & Hb2 & Hb3 & Hb4).
  assert (Hdist : vectorDistance (as_numbers (get Glyphs.EMBEDDINGS from))
                                 (as_numbers (get Glyphs.EMBEDDINGS to))
                  = Num (sqrt (sq_dist [a; b; c; e] [a'; b'; c'; e']))).
  { rewrite Ha, Hb. cbn [as_numbers]. apply vectorDistance_real. }
  set (S := sq_dist [a; b; c; e] [a'; b'; c'; e']) in *.
  assert (HS : 0 <= S <= 4).
  { split; [apply sq_dist_nonneg|]. subst S. cbn. nra. }
  assert (Hd : 0 <= sqrt S <= 2).
  { split; [apply sqrt_pos | apply sqrt_le_bound; lra]. }
  set (d := sqrt S) in *.
  assert (Htemp : temporalResidualFromDistance (Num d) CAP_default = Num (d / 5)).
  { rewrite temporalResidual_real. f_equal. apply Rmin_right. lra. }
  unfold metrics. cbn [m_dist m_deltaTemporal m_div m_deltaLogic m_verdict].
  rewrite Hdist, Htemp.
  destruct (forbiddenTransition from to); cbn [logicResidualFromRule];
    rewrite divergence_default_real.
  - exists d, (sqrt (0.6 * (1 * 1) + 0.4 * (d / 5 * (d / 5)))).
    assert (Hb1' : sqrt (0.6 * (1 * 1) + 0.4 * (d / 5 * (d / 5))) <= 1)
      by (apply sqrt_le_bound; nra).
    repeat split; try lra; try apply sqrt_pos.
    unfold verdictFromDivergence, ge. decide_cmp. reflexivity.
  - exists d, (sqrt (0.6 * (0 * 0) + 0.4 * (d / 5 * (d / 5)))).
    assert (Hb45 : sqrt (0.6 * (0 * 0) + 0.4 * (d / 5 * (d / 5))) <= 0.45)
      by (apply sqrt_le_bound; nra).
    repeat split; try lra; try apply sqrt_pos.
    unfold verdictFromDivergence, ge, gt. decide_cmp. reflexivity.
Qed.

(** For every pair of configured states the metrics of the handlers are
    real numbers: the raw distance is at most 2, the temporal residual is
    the distance over 5, the divergence lies in [0, 1], and the verdict is
    REJECT exactly for a forbidden pair and VALID for every other pair:
    CAUTION and SUSPICIOUS do not occur.  The consensus strength of the
    response is then 1 minus the divergence; neither clamp is active. *)
Theorem configured_pairs_verdict (from to : string) :
  In from Glyphs.getAllSymbolicStates ->
  In to Glyphs.getAllSymbolicStates ->
  exists d dv : R,
    m_dist (metrics from to) = Num d /\ 0 <= d <= 2 /\
    m_deltaTemporal (metrics from to) = Num (d / 5) /\
    m_div (metrics from to) = Num dv /\ 0 <= dv <= 1 /\
    m_deltaLogic (metrics from to)
      = (if forbiddenTransition from to then Num 1 else Num 0) /\
    m_verdict (metrics from to)
      = (if forbiddenTransition from to then REJECT else VALID) /\
    consensusStrength (m_div (metrics from to)) = Num (1 - dv).
Proof.
  intros Hf Ht.
  destruct (configured_metrics from to Hf Ht)
    as (d & dv & Hdist & Hd & Htemp & Hdv & Hb & Hlogic & Hverdict).
  exists d, dv. repeat split; try assumption; try lra.
  rewrite Hdv. unfold consensusStrength. cbn [sub Math_min Math_max lift2].
  f_equal. rewrite (Rmin_right 1 (1 - dv)) by lra. apply Rmax_right. lra.
Qed.

Lemma configured_pairs_verdict_witness :
  (In "chaos"%string Glyphs.getAllSymbolicStates /\
   In "serenity"%string Glyphs.getAllSymbolicStates) /\
  exists d dv : R,
    m_dist (metrics "chaos" "serenity") = Num d /\ 0 <= d <= 2 /\
    m_deltaTemporal (metrics "chaos" "serenity") = Num (d / 5) /\
    m_div (metrics "chaos" "serenity") = Num dv /\ 0 <= dv <= 1 /\
    m_deltaLogic (metrics "chaos" "serenity")
      = (if forbiddenTransition "chaos" "serenity" then Num 1 else Num 0) /\
    m_verdict (metrics "chaos" "serenity")
      = (if forbiddenTransition "chaos" "serenity" then REJECT else VALID) /\
    consensusStrength (m_div (metrics "chaos" "serenity")) = Num (1 - dv).
Proof.
  split; [split; cbn; auto 10|].
  apply (configured_pairs_verdict "chaos" "serenity"); cbn; auto 10.
Defined.

End TemporalBaseline.

(** ** Keys, round trips and isolation in the integrity table *)

Section IntegrityTable.
Import Integrity Vocabulary.

Lemma append_nil (s : string) : "" +:+ s = s.
Proof. reflexivity. Qed.

Lemma append_cons (c : ascii) (a s : string) :
  String c a +:+ s = String c (a +:+ s).
Proof. reflexivity. Qed.

Lemma append_cancel_l (a s s' : string) : a +:+ s = a +:+ s' -> s = s'.
Proof.
  induction a as [|c a IH]; rewrite ?append_nil, ?append_cons; intros H;
    [exact H|].
  injection H as H. now apply IH.
Qed.

Lemma length_append (a s : string) :
  String.length (a +:+ s) = (String.length a + String.length s)%nat.
Proof.
  induction a as [|c a IH]; rewrite ?append_nil, ?append_cons; cbn;
    [reflexivity | now f_equal].
Qed.

Lemma append_cancel_len (a a' s s' : string) :
  String.length a = String.length a' -> a +:+ s = a' +:+ s' -> a = a' /\ s = s'.
Proof.
  revert a'. induction a as [|c a IH]; intros [|c' a'] Hlen H;
    try discriminate Hlen; rewrite ?append_nil, ?append_cons in H.
  - split; [reflexivity | exact H].
  - injection H as -> H. cbn in Hlen.
    destruct (IH a') as [-> ->]; [lia | exact H | split; reflexivity].
Qed.

Lemma append_cancel_r (a a' s : string) : a +:+ s = a' +:+ s -> a = a'.
Proof.
  intros H. apply (append_cancel_len a a' s s); [|exact H].
  pose proof (f_equal String.length H) as Hl.
  rewrite (length_append a s), (length_append a' s) in Hl. lia.
Qed.

Lemma colon_free_prefix (a a' s s' : string) :
  colon_free a = true -> colon_free a' = true ->
  a +:+ ":" +:+ s = a' +:+ ":" +:+ s' -> a = a'.
Proof.
  revert a'. induction a as [|c a IH]; intros [|c' a'] Ha Ha' H;
    rewrite ?append_nil, ?append_cons in H; cbn in Ha, Ha'.
  - reflexivity.
  - injection H as <- _. apply andb_prop in Ha' as [Hc _]. discriminate Hc.
  - injection H as -> _. apply andb_prop in Ha as [Hc _]. discriminate Hc.
  - injection H as -> H. apply andb_prop in Ha as [_ Ha].
    apply andb_prop in Ha' as [_ Ha']. f_equal. now apply IH.
Qed.

(** The composite key tells two (actor, domain) pairs apart whenever they
    share the domain, or share the actor, or both actor identifiers are
    free of [':']: a collision needs both components to differ and a
    [':'] inside an actor identifier. *)
Theorem key_separates :
  forall a a' d d' : string,
    (key a d = key a' d -> a = a') /\
    (key a d = key a d' -> d = d') /\
    (colon_free a = true -> colon_free a' = true ->
     key a d = key a' d' -> a = a' /\ d = d').
Proof.
  intros a a' d d'. unfold key. split; [|split].
  - intros H. apply (append_cancel_r a a' ("::" +:+ d)). exact H.
  - intros H. apply append_cancel_l in H. apply (append_cancel_l "::") in H. exact H.
  - intros Ha Ha' H.
    assert (a = a') as <-.
    { change ("::" +:+ d) with (":" +:+ ":" +:+ d) in H.
      change ("::" +:+ d') with (":" +:+ ":" +:+ d') in H.
      now apply (colon_free_prefix a a' (":" +:+ d) (":" +:+ d')). }
    split; [reflexivity|].
    apply append_cancel_l in H. apply (append_cancel_l "::") in H. exact H.
Qed.

(** After an update, the details of the key hold the actor, the domain,
    the clock reading and the count plus one, and a read returns what the
    update returned; every other key reads as before, after an update as
    after a reset. *)
Theorem update_roundtrip_and_frame :
  forall (now : Z) (tbl : Table) (a d : string) (div : number),
    let tbl' := fst (updateIntegrity now tbl a d div) in
    (exists row,
        snd (getIntegrityDetails tbl' a d) = Some row /\
        actorId row = a /\ Integrity.domain row = d /\ lastUpdated row = now /\
        interactionCount row = S (prior_count tbl a d) /\
        snd (getIntegrity tbl' a d) = integrity row /\
        snd (updateIntegrity now tbl a d div) = integrity row) /\
    (forall a' d' : string,
        key a' d' <> key a d ->
        snd (getIntegrityDetails tbl' a' d') = snd (getIntegrityDetails tbl a' d') /\
        snd (getIntegrity tbl' a' d') = snd (getIntegrity tbl a' d') /\
        snd (getIntegrityDetails (resetIntegrity tbl a d) a' d')
          = snd (getIntegrityDetails tbl a' d')).
Proof.
  intros now tbl a d dv tbl'. subst tbl'.
  destruct (updateIntegrity_row now tbl a d dv)
    as (row & -> & _ & Hc & Ha & Hd & Hn).
  cbn [fst snd]. split.
  - exists row. unfold getIntegrityDetails, getIntegrity. cbn [snd].
    rewrite lookup_insert_eq. repeat split; assumption.
  - intros a' d' Hne. unfold getIntegrityDetails, getIntegrity, resetIntegrity.
    cbn [snd]. rewrite lookup_insert_ne by congruence.
    rewrite lookup_delete_ne by congruence. repeat split.
Qed.

End IntegrityTable.

(** ** Invariants of the integrity table, the trend and the summary *)

Section IntegrityInvariants.
Import Integrity Vocabulary.

Lemma updateIntegrity_average (now : Z) (tbl : Table) (a d : string) (div : number) :
  exists row,
    fst (updateIntegrity now tbl a d div) = <[key a d := row]> tbl /\
    integrity row
      = blend (prior_integrity tbl a d) (adjustedPenalty div (prior_count tbl a d)) /\
    averageDivergence row
      = add (mul (sub (Num 1) ALPHA) (prior_average tbl a d)) (mul ALPHA div) /\
    interactionCount row = S (prior_count tbl a d) /\
    actorId row = a /\ Integrity.domain row = d.
Proof.
  unfold updateIntegrity, prior_integrity, prior_count, prior_average, blend.
  eexists. split; [reflexivity|]. cbn. repeat split. lia.
Qed.

(** An update with a divergence in [0, 1] keeps every record well formed. *)
Lemma update_preserves_table_ok (now : Z) (tbl : Table) (a d : string) (dv : number) :
  table_ok tbl -> unit_divergence dv ->
  table_ok (fst (updateIntegrity now tbl a d dv)).
Proof.
  intros Hok (r & -> & Hr).
  destruct (updateIntegrity_average now tbl a d (Num r))
    as (row & -> & Hi & Havg & Hc & Ha & Hd).
  intros k row' Hk. destruct (decide (key a d = k)) as [<-|Hne].
  - rewrite lookup_insert_eq in Hk. injection Hk as <-.
    assert (Hprior : exists i av, prior_integrity tbl a d = Num i /\
                                  prior_average tbl a d = Num av /\ 0 <= av <= 1).
    { unfold prior_integrity, prior_average.
      destruct (tbl !! key a d) as [p|] eqn:Hp.
      - destruct (Hok _ _ Hp) as (_ & _ & i & av & Hpi & _ & Hpa & Hav).
        exists i, av. auto.
      - exists 0.85, 0.3. repeat split; lra. }
    destruct Hprior as (i & av & Hpi & Hpa & Hav).
    destruct (adjustedPenalty_real r (prior_count tbl a d)) as [p Hp].
    rewrite Hpi, Hp in Hi. destruct (blend_real i p) as (x & Hx & Hxb).
    rewrite Hpa in Havg. unfold ALPHA in Havg. cbn in Havg.
    split; [now rewrite Ha, Hd|]. split; [lia|].
    exists x, ((1 - 0.2) * av + 0.2 * r).
    repeat split; try congruence; lra.
  - rewrite lookup_insert_ne in Hk by exact Hne. now apply Hok.
Qed.

Lemma update_each_count (divs : list number) (now : Z) (tbl : Table) (a d : string) :
  prior_count (update_each divs now tbl a d) a d
  = (prior_count tbl a d + length divs)%nat.
Proof.
  revert tbl. induction divs as [|dv divs IH]; intros tbl; cbn [update_each length];
    [lia|].
  rewrite IH, update_increments_count. lia.
Qed.

Lemma update_each_table_ok (divs : list number) (now : Z) (tbl : Table) (a d : string) :
  table_ok tbl -> Forall unit_divergence divs ->
  table_ok (update_each divs now tbl a d).
Proof.
  revert tbl. induction divs as [|dv divs IH]; intros tbl Hok Hall; [exact Hok|].
  cbn [update_each]. apply Forall_cons_iff in Hall as [Hdv Hall].
  apply IH; [|exact Hall]. now apply update_preserves_table_ok.
Qed.

(** For a key without a record, the trend stays 0 until the key has been
    updated three times; from then on, if the table was well formed and the
    divergences lie in [0, 1], it is integrity - (1 - averageDivergence), a
    real number between -0.95 and 1. *)
Theorem trend_after_updates
    (divs : list number) (now : Z) (tbl : Table) (a d : string) :
  tbl !! key a d = None ->
  let tbl' := update_each divs now tbl a d in
  ((length divs < 3)%nat -> snd (getIntegrityTrend tbl' a d) = Num 0) /\
  ((3 <= length divs)%nat -> table_ok tbl -> Forall unit_divergence divs ->
   exists i av : R,
     prior_integrity tbl' a d = Num i /\ prior_average tbl' a d = Num av /\
     snd (getIntegrityTrend tbl' a d) = Num (i - (1 - av)) /\
     -0.95 <= i - (1 - av) <= 1).
Proof.
  intros Hnone tbl'.
  assert (Hcount : prior_count tbl' a d = length divs).
  { subst tbl'. rewrite update_each_count. unfold prior_count. now rewrite Hnone. }
  unfold getIntegrityTrend, getIntegrityDetails. cbn [fst snd].
  unfold prior_count in Hcount. split.
  - intros Hlt. destruct (tbl' !! key a d) as [row|]; [|reflexivity].
    destruct (Nat.ltb_spec (interactionCount row) 3); [reflexivity | lia].
  - intros Hge Hok Hall.
    pose proof (update_each_table_ok divs now tbl a d Hok Hall) as Hok'.
    fold tbl' in Hok'. unfold prior_integrity, prior_average.
    destruct (tbl' !! key a d) as [row|] eqn:Hrow; [|lia].
    destruct (Hok' _ _ Hrow) as (_ & _ & i & av & Hi & Hib & Hav & Havb).
    exists i, av. rewrite Hi, Hav.
    destruct (Nat.ltb_spec (interactionCount row) 3); [lia|].
    repeat split; lra.
Qed.

Lemma trend_after_updates_witness :
  (∅ : Table) !! key "user:A" "symbolic.state" = None /\
  let tbl' := update_each [Num 0.2; Num 0.9; Num 0.4] 0 ∅ "user:A" "symbolic.state" in
  ((length [Num 0.2; Num 0.9; Num 0.4] < 3)%nat ->
   snd (getIntegrityTrend tbl' "user:A" "symbolic.state") = Num 0) /\
  ((3 <= length [Num 0.2; Num 0.9; Num 0.4])%nat -> table_ok ∅ ->
   Forall unit_divergence [Num 0.2; Num 0.9; Num 0.4] ->
   exists i av : R,
     prior_integrity tbl' "user:A" "symbolic.state" = Num i /\
     prior_average tbl' "user:A" "symbolic.state" = Num av /\
     snd (getIntegrityTrend tbl' "user:A" "symbolic.state") = Num (i - (1 - av)) /\
     -0.95 <= i - (1 - av) <= 1).
Proof.
  split; [reflexivity|].
  apply (trend_after_updates [Num 0.2; Num 0.9; Num 0.4] 0 ∅ "user:A" "symbolic.state").
  reflexivity.
Defined.

End IntegrityInvariants.

(** ** The summary of an actor across domains *)

Section ActorSummaries.
Import Integrity Vocabulary.

#[local] Abbreviation count_step :=
  (fun (sum : nat) (r : IntegrityRow) => (sum + interactionCount r)%nat).

#[local] Abbreviation weight_step T :=
  (fun (sum : number) (r : IntegrityRow) =>
     add sum (mul (integrity r) (JS.div (of_nat (interactionCount r)) (of_nat T)))).







End ActorSummaries.

(** ** State names: the [in] test and the truthiness test *)

Section StateNames.
Import Vocabulary.

Lemma assoc_Some_In {A : Type} (k : string) (l : list (string * A)) (v : A) :
  assoc k l = Some v -> In k (Object_keys l).
Proof.
  induction l as [|[k' v'] l IH]; cbn; [discriminate|].
  destruct (String.eqb_spec k' k) as [->|Hne]; [now left | right; now apply IH].
Qed.

Lemma assoc_In {A : Type} (k : string) (l : list (string * A)) :
  In k (Object_keys l) -> exists v, assoc k l = Some v.
Proof.
  intros H. destruct (assoc k l) as [v|] eqn:E; [now exists v|].
  exfalso. induction l as [|[k' v'] l IH]; cbn in *; [exact H|].
  destruct (String.eqb_spec k' k) as [->|Hne]; [discriminate|].
  destruct H as [H|H]; [contradiction | now apply IH].
Qed.

Lemma assoc_Some_value {A : Type} (k : string) (l : list (string * A)) (v : A) :
  assoc k l = Some v -> In v (map snd l).
Proof.
  induction l as [|[k' v'] l IH]; cbn [assoc map snd]; [discriminate|].
  destruct (String.eqb k' k); [intros [= <-]; now left | right; now apply IH].
Qed.

Lemma prototype_truthy (k : string) (v : value) :
  assoc k Object_prototype = Some v -> truthy v = true.
Proof.
  intros H. apply assoc_Some_value in H. cbn in H.
  repeat (destruct H as [<- | H]; [reflexivity|]). contradiction.
Qed.

Lemma truthy_lookup (s : string) :
  truthy (get Glyphs.EMBEDDINGS s) = true <->
  In s Glyphs.getAllSymbolicStates \/ inherited_name s.
Proof.
  unfold get, inherited_name, Glyphs.getAllSymbolicStates. split.
  - destruct (assoc s Glyphs.EMBEDDINGS) as [xs|] eqn:E.
    + intros _. left. exact (assoc_Some_In _ _ _ E).
    + destruct (assoc s Object_prototype) as [v|] eqn:E'; [|discriminate].
      intros _. right. exact (assoc_Some_In _ _ _ E').
  - intros [H|H].
    + destruct (assoc_In _ _ H) as [xs ->]. reflexivity.
    + destruct (assoc s Glyphs.EMBEDDINGS); [reflexivity|].
      destruct (assoc_In _ _ H) as [v Hv]. rewrite Hv.
      exact (prototype_truthy _ _ Hv).
Qed.

(** [isValidSymbolicState] accepts exactly the configured state names and
    the twelve names inherited from [Object.prototype]; on every name it
    agrees with the truthiness test of the handlers, so a pair of names
    passes the validation check exactly when [isValidSymbolicState] holds
    of both. *)
Theorem valid_state_names :
  forall s t : string,
    (Glyphs.isValidSymbolicState s = true <->
     In s Glyphs.getAllSymbolicStates \/ inherited_name s) /\
    Glyphs.isValidSymbolicState s = truthy (get Glyphs.EMBEDDINGS s) /\
    invalid_states s t
      = negb (Glyphs.isValidSymbolicState s && Glyphs.isValidSymbolicState t).
Proof.
  assert (Hagree : forall s, Glyphs.isValidSymbolicState s
                             = truthy (get Glyphs.EMBEDDINGS s)).
  { intros s. unfold Glyphs.isValidSymbolicState, has_property, get.
    destruct (assoc s Glyphs.EMBEDDINGS); [reflexivity|].
    destruct (assoc s Object_prototype) as [v|] eqn:E; [|reflexivity].
    symmetry. exact (prototype_truthy _ _ E). }
  intros s t. split; [|split].
  - rewrite Hagree. apply truthy_lookup.
  - apply Hagree.
  - unfold invalid_states. rewrite !Hagree.
    now destruct (truthy _), (truthy _).
Qed.

End StateNames.

(** ** The app-router handlers against the Express handlers *)

Section AppRouterAgreement.
Import Routes AppRouter Vocabulary.

Variable sha256_hex : string -> string.
Variable Number_toString : number -> string.

Lemma call_vectorDistance_spec (a b : value) :
  call_vectorDistance a b
  = if negb (truthy a) || negb (truthy b) then Throw TypeError
    else Return (Fraud.vectorDistance (as_numbers a) (as_numbers b)).
Proof. destruct a, b; reflexivity. Qed.

(** The app-router handlers have no validation check: where the Express
    handlers answer with the validation error and change nothing, they
    throw a [TypeError] (before any update or append); on every other
    request they return exactly what the Express handlers return, response
    and globals. *)
Theorem app_router_agrees :
  forall (now : nat -> Z) (g : Globals) (req : Request),
    POST_transition sha256_hex Number_toString now g req
    = (if invalid_states (from req) (to req) then Throw TypeError
       else Return (transition sha256_hex Number_toString now g req)) /\
    POST_detect g req
    = (if invalid_states (from req) (to req) then Throw TypeError
       else Return (detect g req)).
Proof.
  intros now g req.
  unfold POST_transition, POST_detect, Routes.transition, detect, invalid_states.
  cbv zeta. rewrite call_vectorDistance_spec.
  destruct (negb (truthy (get Glyphs.EMBEDDINGS (from req)))
            || negb (truthy (get Glyphs.EMBEDDINGS (to req)))).
  - split; reflexivity.
  - split.
    + cbn [Integrity.getIntegrity].
      destruct (Fraud.Verdict_eqb _ _).
      * destruct (Integrity.updateIntegrity (now 0%nat) _ _ _ _) as [tblA postA].
        destruct (Integrity.updateIntegrity (now 1%nat) _ _ _ _) as [tblB postB].
        reflexivity.
      * destruct (Integrity.updateIntegrity (now 0%nat) _ _ _ _) as [tblA postA].
        destruct (Integrity.updateIntegrity (now 1%nat) _ _ _ _) as [tblB postB].
        reflexivity.
    + reflexivity.
Qed.

End AppRouterAgreement.

(** ** Runs of the transition handler: the table and the ledger *)

Section HandlerRuns.
Import Fraud Integrity ProofLedger Routes Vocabulary.

Variable sha256_hex : string -> string.
Variable Number_toString : number -> string.

#[local] Abbreviation transition := (transition sha256_hex Number_toString).
#[local] Abbreviation serve := (Vocabulary.serve sha256_hex Number_toString).
#[local] Abbreviation accepted := (Vocabulary.accepted sha256_hex Number_toString).
#[local] Abbreviation appendProof := (appendProof sha256_hex Number_toString).

(** A request that passes the validation check leaves the table that the
    two updates produce, whatever the verdict. *)
Lemma transition_table (now : nat -> Z) (g : Globals) (req : Request) :
  invalid_states (from req) (to req) = false ->
  SKYLA_INTEGRITY (fst (transition now g req)) = table_after now g req.
Proof.
  intros Hv.
  destruct (Verdict_eqb (m_verdict (metrics (from req) (to req))) REJECT) eqn:He.
  - apply Verdict_eqb_eq in He.
    destruct (transition_rejected sha256_hex Number_toString now g req Hv He)
      as (upd & ->). reflexivity.
  - assert (Hne : m_verdict (metrics (from req) (to req)) <> REJECT)
      by (intros Heq; apply Verdict_eqb_eq in Heq; congruence).
    destruct (transition_accepted sha256_hex Number_toString now g req Hv Hne)
      as (node & upd & _ & ->). reflexivity.
Qed.

Lemma update_frame (now : Z) (tbl : Table) (a d : string) (dv : number) (k : string) :
  k <> key a d -> fst (updateIntegrity now tbl a d dv) !! k = tbl !! k.
Proof.
  intros Hne. destruct (updateIntegrity_average now tbl a d dv) as (row & -> & _).
  apply lookup_insert_ne. congruence.
Qed.

Lemma update_count_other (now : Z) (tbl : Table) (a d : string) (dv : number)
    (a' d' : string) :
  key a' d' <> key a d ->
  prior_count (fst (updateIntegrity now tbl a d dv)) a' d' = prior_count tbl a' d'.
Proof. intros Hne. unfold prior_count. now rewrite update_frame. Qed.

(** Every request that passes the validation check counts one interaction
    for each of its two actors in the request's domain (two for an actor
    named on both sides), whatever the verdict, and leaves the record of
    every other key as it was. *)
Theorem transition_counts_interactions
    (now : nat -> Z) (g : Globals) (req : Request) :
  invalid_states (from req) (to req) = false ->
  let tbl := SKYLA_INTEGRITY g in
  let tbl' := SKYLA_INTEGRITY (fst (transition now g req)) in
  let A := actorA_of req in
  let B := actorB_of req in
  let d := domain_of req in
  (A <> B ->
   prior_count tbl' A d = S (prior_count tbl A d) /\
   prior_count tbl' B d = S (prior_count tbl B d)) /\
  (A = B -> prior_count tbl' A d = S (S (prior_count tbl A d))) /\
  (forall k : string, k <> key A d -> k <> key B d -> tbl' !! k = tbl !! k).
Proof.
  intros Hv tbl tbl' A B d. subst tbl'. rewrite (transition_table now g req Hv).
  unfold table_after. fold tbl A B d.
  set (m := metrics (from req) (to req)).
  set (dvB := Math_min _ _).
  split; [|split].
  - intros Hne.
    assert (Hk : key A d <> key B d).
    { intros E. apply Hne. exact (append_cancel_r A B ("::" +:+ d) E). }
    split.
    + rewrite update_count_other by exact Hk. apply update_increments_count.
    + rewrite update_increments_count. f_equal.
      apply update_count_other. congruence.
  - intros <-. now rewrite !update_increments_count.
  - intros k HA HB. now rewrite !update_frame.
Qed.

(** A request none of whose two state names is inherited from
    [Object.prototype] keeps a well-formed table well formed. *)
Lemma transition_table_ok (now : nat -> Z) (g : Globals) (req : Request) :
  table_ok (SKYLA_INTEGRITY g) ->
  ~ inherited_name (from req) -> ~ inherited_name (to req) ->
  table_ok (SKYLA_INTEGRITY (fst (transition now g req))).
Proof.
  intros Hok Hf Ht.
  destruct (invalid_states (from req) (to req)) eqn:Hv.
  - now rewrite (transition_invalid sha256_hex Number_toString now g req Hv).
  - rewrite (transition_table now g req Hv).
    apply orb_false_elim in Hv as [Hvf Hvt].
    apply negb_false_iff, truthy_lookup in Hvf as [Hcf|]; [|contradiction].
    apply negb_false_iff, truthy_lookup in Hvt as [Hct|]; [|contradiction].
    destruct (configured_metrics _ _ Hcf Hct)
      as (x & dv & _ & _ & _ & Hdv & Hb & _ & _).
    unfold table_after. rewrite Hdv. cbn [Math_min mul lift2].
    apply update_preserves_table_ok.
    + apply update_preserves_table_ok; [exact Hok|]. exists dv. auto.
    + eexists. split; [reflexivity|].
      assert (0 < counterpart_share (m_verdict (metrics (from req) (to req))) <= 0.5)
        by (destruct (m_verdict _); cbn; lra).
      split; [apply Rmin_glb; nra | apply Rmin_r].
Qed.

(** Over any run of transition requests in which no state name is one
    inherited from [Object.prototype], a well-formed integrity table stays
    well formed: every record sits under the key of its own actor and
    domain, has been updated at least once, and holds an integrity in
    [0.05, 1] and an average divergence in [0, 1]. *)
Theorem served_table_wellformed
    (reqs : list ((nat -> Z) * Request)) (g : Globals) :
  table_ok (SKYLA_INTEGRITY g) ->
  Forall (fun nr => ~ inherited_name (from (snd nr)) /\
                    ~ inherited_name (to (snd nr))) reqs ->
  table_ok (SKYLA_INTEGRITY (serve g reqs)).
Proof.
  revert g. induction reqs as [|[now req] reqs IH]; intros g Hok Hall;
    [exact Hok|].
  apply Forall_cons_iff in Hall as [[Hf Ht] Hall]. cbn [Vocabulary.serve].
  apply IH; [|exact Hall]. now apply transition_table_ok.
Qed.



(** After [resetProofChain], the next accepted request starts a new
    ledger: the chain is the single node with index 0 and [prevHash]
    "GENESIS", the response reports index 0, that node's hash and a chain
    length of 1, and the integrity table is updated as without the reset. *)
Theorem reset_restarts_ledger
    (now : nat -> Z) (g : Globals) (req : Request) :
  invalid_states (from req) (to req) = false ->
  m_verdict (metrics (from req) (to req)) <> REJECT ->
  let g0 := {| SKYLA_INTEGRITY := SKYLA_INTEGRITY g;
               SKYLA_CHAIN := resetProofChain (SKYLA_CHAIN g) |} in
  exists node updates,
    SKYLA_CHAIN (fst (transition now g0 req)) = [node] /\
    getProofChain (SKYLA_CHAIN (fst (transition now g0 req))) = [node] /\
    idx node = 0%nat /\ prevHash node = "GENESIS"%string /\
    ProofLedger.from node = from req /\ ProofLedger.to node = to req /\
    snd (transition now g0 req)
    = TransitionAccepted true (to req) (hash node) 0
        (delta_of (metrics (from req) (to req)))
        (m_verdict (metrics (from req) (to req)))
        (consensusStrength (m_div (metrics (from req) (to req))))
        updates true 1 /\
    SKYLA_INTEGRITY (fst (transition now g0 req))
    = SKYLA_INTEGRITY (fst (transition now g req)).
Proof.
  intros Hv Hne g0.
  destruct (transition_accepted sha256_hex Number_toString now g0 req Hv Hne)
    as (node & upd & Happ & Htr).
  destruct (appendProof_node sha256_hex Number_toString
              (SKYLA_CHAIN g0) (ledger_entry g0 req))
    as (node' & Happ' & Hidx & Hfrom & Hto & _ & Hprev & _).
  rewrite Happ in Happ'. apply app_inj_tail in Happ' as [_ <-].
  exists node, upd. rewrite Htr. cbn [fst snd SKYLA_CHAIN SKYLA_INTEGRITY].
  rewrite Hidx. cbn [g0 SKYLA_CHAIN resetProofChain length app getProofChain].
  repeat split; try assumption.
  rewrite (transition_table now g req Hv). reflexivity.
Qed.

End HandlerRuns.

(** ** Instances of the run theorems *)

Section RunInstances.
Import Fraud Integrity ProofLedger Routes Vocabulary.

Lemma chaos_conflict_valid :
  invalid_states (from (request "chaos" "conflict"))
                 (to (request "chaos" "conflict")) = false.
Proof. reflexivity. Qed.

Lemma chaos_conflict_not_rejected :
  m_verdict (metrics (from (request "chaos" "conflict"))
                     (to (request "chaos" "conflict"))) <> REJECT.
Proof.
  destruct (configured_metrics "chaos" "conflict")
    as (d & dv & _ & _ & _ & _ & _ & _ & Hv); [cbn; auto 10 | cbn; auto 10 |].
  cbn [from to request]. rewrite Hv. discriminate.
Qed.

Lemma transition_counts_interactions_witness :
  invalid_states (from (request "chaos" "conflict"))
                 (to (request "chaos" "conflict")) = false /\
  let req := request "chaos" "conflict" in
  let tbl := SKYLA_INTEGRITY startup in
  let tbl' := SKYLA_INTEGRITY
                (fst (transition example_digest example_toString example_clock
                        startup req)) in
  let A := actorA_of req in
  let B := actorB_of req in
  let d := domain_of req in
  (A <> B ->
   prior_count tbl' A d = S (prior_count tbl A d) /\
   prior_count tbl' B d = S (prior_count tbl B d)) /\
  (A = B -> prior_count tbl' A d = S (S (prior_count tbl A d))) /\
  (forall k : string, k <> key A d -> k <> key B d -> tbl' !! k = tbl !! k).
Proof.
  split; [exact chaos_conflict_valid|].
  exact (transition_counts_interactions example_digest example_toString
           example_clock startup (request "chaos" "conflict") chaos_conflict_valid).
Defined.

Lemma served_table_wellformed_witness :
  let reqs := [(example_clock, request "chaos" "peace");
               (example_clock, request "limbo" "chaos");
               (example_clock, request "chaos" "conflict")] in
  table_ok (SKYLA_INTEGRITY startup) /\
  Forall (fun nr => ~ inherited_name (from (snd nr)) /\
                    ~ inherited_name (to (snd nr))) reqs /\
  table_ok (SKYLA_INTEGRITY (serve example_digest example_toString startup reqs)).
Proof.
  intros reqs.
  assert (H0 : table_ok (SKYLA_INTEGRITY startup)).
  { intros k row Hk. cbn in Hk. rewrite lookup_empty in Hk. discriminate. }
  assert (Hall : Forall (fun nr => ~ inherited_name (from (snd nr)) /\
                                   ~ inherited_name (to (snd nr))) reqs).
  { repeat constructor; cbn; intuition discriminate. }
  split; [exact H0|]. split; [exact Hall|].
  exact (served_table_wellformed example_digest example_toString reqs startup H0 Hall).
Defined.

Lemma reset_restarts_ledger_witness :
  let req := request "chaos" "conflict" in
  let g := fst (transition example_digest example_toString example_clock startup req) in
  let g0 := {| SKYLA_INTEGRITY := SKYLA_INTEGRITY g;
               SKYLA_CHAIN := resetProofChain (SKYLA_CHAIN g) |} in
  invalid_states (from req) (to req) = false /\
  m_verdict (metrics (from req) (to req)) <> REJECT /\
  exists node updates,
    SKYLA_CHAIN (fst (transition example_digest example_toString example_clock g0 req))
      = [node] /\
    getProofChain
      (SKYLA_CHAIN (fst (transition example_digest example_toString example_clock g0 req)))
      = [node] /\
    idx node = 0%nat /\ prevHash node = "GENESIS"%string /\
    ProofLedger.from node = from req /\ ProofLedger.to node = to req /\
    snd (transition example_digest example_toString example_clock g0 req)
    = TransitionAccepted true (to req) (hash node) 0
        (delta_of (metrics (from req) (to req)))
        (m_verdict (metrics (from req) (to req)))
        (consensusStrength (m_div (metrics (from req) (to req))))
        updates true 1 /\
    SKYLA_INTEGRITY (fst (transition example_digest example_toString example_clock g0 req))
    = SKYLA_INTEGRITY (fst (transition example_digest example_toString example_clock g req)).
Proof.
  intros req g g0.
  split; [exact chaos_conflict_valid|]. split; [exact chaos_conflict_not_rejected|].
  exact (reset_restarts_ledger example_digest example_toString example_clock g req
           chaos_conflict_valid chaos_conflict_not_rejected).
Defined.

End RunInstances.

(** ** The reasons attached to a verdict *)

Section Reasons.
Import Fraud Routes Vocabulary.

Variable Number_toFixed : number -> nat -> string.

#[local] Abbreviation generateDBTReasons := (generateDBTReasons Number_toFixed).

Lemma reason_logic_distinct (from to : string) :
  reason_logic_violated from to <> reason_logic_satisfied.
Proof.
  unfold reason_logic_violated, reason_logic_satisfied.
  rewrite !append_cons. discriminate.
Qed.

(** [generateDBTReasons] always returns three reasons: one for the logic
    baseline, one for the temporal baseline and the combined divergence.
    The first one reports a violation exactly when [deltaLogic >= 1], and
    then the verdict is REJECT.  On NaN metrics it reports both baselines as
    satisfied. *)
Theorem reasons_follow_logic_residual :
  forall (deltaLogic deltaTemporal div : number) (from to : string),
    let rs := generateDBTReasons deltaLogic deltaTemporal div from to in
    (exists r1 r2, rs = [r1; r2; reason_combined Number_toFixed div] /\
       (ge deltaLogic (Num 1) = true <-> r1 = reason_logic_violated from to) /\
       (ge deltaLogic (Num 1) = false <-> r1 = reason_logic_satisfied) /\
       (r1 = reason_logic_violated from to ->
        verdictFromDivergence deltaLogic deltaTemporal div = REJECT)) /\
    generateDBTReasons NaN NaN NaN from to
    = [reason_logic_satisfied; reason_temporal_satisfied Number_toFixed NaN;
       reason_combined Number_toFixed NaN].
Proof.
  intros dl dt dv from to rs. split; [|reflexivity].
  subst rs. unfold Fraud.generateDBTReasons, verdictFromDivergence.
  pose proof (reason_logic_distinct from to) as Hd.
  destruct (ge dl (Num 1)) eqn:Hge;
    destruct (gt dt (Num 0.8)); [| destruct (gt dt (Num 0.5)) | | destruct (gt dt (Num 0.5))];
    cbn [app]; do 2 eexists; (split; [reflexivity|]);
    repeat split; try reflexivity; try congruence;
    intros H; try discriminate H; exfalso; apply Hd; (exact H || (symmetry; exact H)).
Qed.

(** For a pair of configured states the reasons of the handlers are: the
    violation reason exactly for a forbidden pair, the "satisfied ... within
    normal range" temporal reason (the residual never exceeds 0.5), and
    the combined divergence. *)
Theorem reasons_for_configured_pairs (from to : string) :
  In from Glyphs.getAllSymbolicStates ->
  In to Glyphs.getAllSymbolicStates ->
  let m := metrics from to in
  generateDBTReasons (m_deltaLogic m) (m_deltaTemporal m) (m_div m) from to
  = [ (if forbiddenTransition from to then reason_logic_violated from to
       else reason_logic_satisfied);
      reason_temporal_satisfied Number_toFixed (m_deltaTemporal m);
      reason_combined Number_toFixed (m_div m) ].
Proof.
  intros Hf Ht m.
  destruct (configured_metrics from to Hf Ht)
    as (d & dv & _ & Hd & Htemp & _ & _ & Hlogic & _).
  fold m in Htemp, Hlogic. unfold Fraud.generateDBTReasons.
  rewrite Hlogic, Htemp.
  assert (Hgt8 : gt (Num (d / 5)) (Num 0.8) = false) by (unfold gt; decide_cmp; reflexivity).
  assert (Hgt5 : gt (Num (d / 5)) (Num 0.5) = false) by (unfold gt; decide_cmp; reflexivity).
  rewrite Hgt8, Hgt5.
  destruct (forbiddenTransition from to); unfold ge; decide_cmp; reflexivity.
Qed.

End Reasons.

Lemma reasons_for_configured_pairs_witness :
  (In "chaos"%string Glyphs.getAllSymbolicStates /\
   In "peace"%string Glyphs.getAllSymbolicStates) /\
  let m := Vocabulary.metrics "chaos" "peace" in
  Fraud.generateDBTReasons Vocabulary.example_toFixed
    (Vocabulary.m_deltaLogic m) (Vocabulary.m_deltaTemporal m) (Vocabulary.m_div m)
    "chaos" "peace"
  = [ (if Fraud.forbiddenTransition "chaos" "peace"
       then Vocabulary.reason_logic_violated "chaos" "peace"
       else Vocabulary.reason_logic_satisfied);
      Vocabulary.reason_temporal_satisfied Vocabulary.example_toFixed
        (Vocabulary.m_deltaTemporal m);
      Vocabulary.reason_combined Vocabulary.example_toFixed (Vocabulary.m_div m) ].
Proof.
  split; [split; cbn; auto 10|].
  apply (reasons_for_configured_pairs Vocabulary.example_toFixed "chaos" "peace");
    cbn; auto 10.
Defined.
